(** * A shallow embedding of the story-map slide deck (src/js/index.js)

    The file follows the source top-down: JavaScript values and the
    conversions the code relies on, GeoJSON data, the Leaflet objects the
    deck talks to, [pointStyle], the [SlideDeck] class method by method,
    and then the properties of the specification.

    Modelling choices, fixed once here:
    - a JavaScript number is an exact rational ([Q]); [0.7] is [7/10];
    - an object read as a dictionary (feature properties, [slideOptions])
      is a [gmap] with string keys; reading an absent key gives
      [undefined];
    - a thrown exception or a rejected promise is the [Throw] outcome of
      a state-and-error monad; the state reached before the throw is
      kept, as in JavaScript;
    - an [async] method is run to completion: each transition finishes
      before the next event is handled;
    - Leaflet objects carry the stamp Leaflet gives them ([L.stamp]);
      stamps stand for object identity. *)

From Stdlib Require Import QArith Lqa ZArith Lia Ascii String.
From stdpp Require Import base gmap strings list pretty.

Open Scope Q_scope.

(** ** JavaScript values *)

(** The values a feature property can have: what JSON text denotes,
    and [undefined] for a property that is not there. An array or an
    object is given by the string that ToPrimitive turns it into, which
    is all the code below can observe of it. Numbers are finite. *)
Inductive value : Type :=
| VUndefined
| VNull
| VBool (b : bool)
| VNum (q : Q)
| VStr (s : string)
| VObject (as_string : string).

(** The two conversions of the engine that are algorithms of their own
    (Number::toString and StringToNumber) are taken as given; [None] is
    NaN. *)
Class JsRuntime : Type := {
  number_to_string : Q -> string;
  string_to_number : string -> option Q
}.

(** ToBoolean. *)
Definition truthy (v : value) : bool :=
  match v with
  | VUndefined | VNull => false
  | VBool b => b
  | VNum q => negb (Qeq_bool q 0)
  | VStr s => negb (String.eqb s "")
  | VObject _ => true
  end.

(** [a || b]. *)
Definition js_or (a b : value) : value := if truthy a then a else b.

Definition is_undefined (v : value) : bool :=
  match v with VUndefined => true | _ => false end.

Definition is_null (v : value) : bool :=
  match v with VNull => true | _ => false end.

Section Conversions.
Context `{!JsRuntime}.

(** ToString, as a template literal applies it. *)
Definition to_string (v : value) : string :=
  match v with
  | VUndefined => "undefined"
  | VNull => "null"
  | VBool true => "true"
  | VBool false => "false"
  | VNum q => number_to_string q
  | VStr s => s
  | VObject s => s
  end.

(** ToNumber. *)
Definition to_number (v : value) : option Q :=
  match v with
  | VUndefined => None
  | VNull => Some 0
  | VBool true => Some 1
  | VBool false => Some 0
  | VNum q => Some q
  | VStr s => string_to_number s
  | VObject s => string_to_number s
  end.

(** [v >= k] for a number literal [k]: false when [v] converts to NaN. *)
Definition js_ge (v : value) (k : Q) : bool :=
  match to_number v with
  | Some q => Qle_bool k q
  | None => false
  end.
End Conversions.

(** [String.prototype.replace] with a one-character pattern: only the
    first occurrence is replaced. *)
Fixpoint replace_first (c : ascii) (by_ : string) (s : string) : string :=
  match s with
  | EmptyString => EmptyString
  | String a rest =>
      if Ascii.eqb a c then by_ +:+ rest
      else String a (replace_first c by_ rest)
  end.

(** ** GeoJSON data *)

(** [props.k] on a properties object. *)
Definition prop (props : gmap string value) (k : string) : value :=
  default VUndefined (props !! k).

Inductive Geometry : Type :=
| Point (lng lat : Q)
| Shape (coords : list (Q * Q)).

(** A feature with its geometry: a point, or a line or polygon given
    by its positions. [properties] is [None] for the JSON value
    [null]. *)
Record Feature : Type := {
  properties : option (gmap string value);
  geometry : Geometry
}.

Record FeatureCollection : Type := {
  features : list Feature;
  bbox : option (Q * Q * Q * Q)
}.

(** ** Errors and the deck monad *)

Inductive error : Type :=
| TypeError
| FetchError.

Inductive outcome (A : Type) : Type :=
| Ok (a : A)
| Throw (e : error).
Arguments Ok {A} a.
Arguments Throw {A} e.

(** ** Leaflet objects *)

(** A path-style object literal; a field that the literal does not
    mention is [None]. *)
Record Style : Type := {
  radius : option Q;
  fillColor : option string;
  color : option string;
  weight : option Q;
  opacity : option Q;
  fillOpacity : option Q
}.

Definition no_style : Style :=
  {| radius := None; fillColor := None; color := None;
     weight := None; opacity := None; fillOpacity := None |}.

(** [setStyle]: the fields of [s] override those already set. *)
Definition setStyle (s old : Style) : Style :=
  {| radius := from_option Some (radius old) (radius s);
     fillColor := from_option Some (fillColor old) (fillColor s);
     color := from_option Some (color old) (color s);
     weight := from_option Some (weight old) (weight s);
     opacity := from_option Some (opacity old) (opacity s);
     fillOpacity := from_option Some (fillOpacity old) (fillOpacity s) |}.

Inductive LayerKind : Type :=
| Marker
| CircleMarker
| Path.

(** A tooltip holds either a value fixed at bind time or the function
    [(l) => l.feature.properties.label], evaluated when it opens. *)
Inductive TooltipContent : Type :=
| TipValue (v : value)
| TipLabelOfLayer.

Record Tooltip : Type := {
  tip_content : TooltipContent;
  tip_permanent : bool
}.

(** One rendered feature. *)
Record Layer : Type := {
  stamp : nat;
  feature : Feature;
  kind : LayerKind;
  style : Style;
  popup : option string;
  tooltip : option Tooltip
}.

Definition bindPopup (content : string) (l : Layer) : Layer :=
  {| stamp := stamp l; feature := feature l; kind := kind l;
     style := style l; popup := Some content; tooltip := tooltip l |}.

Definition bindTooltip (c : TooltipContent) (permanent : bool) (l : Layer)
  : Layer :=
  {| stamp := stamp l; feature := feature l; kind := kind l;
     style := style l; popup := popup l;
     tooltip := Some {| tip_content := c; tip_permanent := permanent |} |}.

(** The layer [L.geoJSON] returns: a feature group with one layer per
    feature. *)
Record GeoJSONLayer : Type := {
  gj_stamp : nat;
  gj_layers : list Layer
}.

(** A call an [onEachFeature] callback makes on the layer it is given. *)
Inductive LayerCall : Type :=
| BindPopup (content : string)
| BindTooltip (content : TooltipContent) (permanent : bool).

Definition apply_call (l : Layer) (c : LayerCall) : Layer :=
  match c with
  | BindPopup content => bindPopup content l
  | BindTooltip content permanent => bindTooltip content permanent l
  end.

(** The options object given to [L.geoJSON]; a callback that is not
    set is [None]. [onEachFeature] works on its layer by side effect:
    it is given by the calls it makes on the layer, in order, or by
    the exception it throws. *)
Record Options : Type := {
  pointToLayer : option (Feature -> Q * Q -> LayerKind * Style);
  style_of : option (Feature -> Style);
  onEachFeature : option (Feature -> outcome (list LayerCall))
}.

(** Bounds handed to [flyToBounds]: those of a GeoJSON [bbox], or
    those Leaflet computes for a rendered layer. *)
Inductive FlyTarget : Type :=
| FlyBbox (west south east north : Q)
| FlyLayerBounds (layer_stamp : nat).

(** The closure [handleFlyEnd] registered for [moveend]: it captures
    the slide's [showpopups] and the rendered layer. Its body runs on a
    later [moveend] event of the map, outside the transition that
    registers it, and changes tooltips only. *)
Record FlyEndHandler : Type := {
  h_showpopups : bool;
  h_layer : nat
}.

Inductive ControlOp : Type :=
| AddTo
| RemoveControl.

(** A control ([L.control]). [ctl_on] says that its [_map] field is
    set, that is, that its container sits in a corner of the map;
    [ctl_log] lists the calls made on it, newest first. *)
Record Control : Type := {
  ctl_stamp : nat;
  ctl_on : bool;
  ctl_log : list ControlOp
}.

(** The map widget. [map_layers] are the keys of [map._layers], the
    table [addLayer] fills and [hasLayer] reads. A control is not a
    layer: [Control.addTo] attaches its container and sets its [_map],
    and leaves [map._layers] alone. [lastId] is the counter behind
    [L.stamp]; [moveend] and [flights] are newest first. *)
Record MapWidget : Type := {
  lastId : nat;
  map_layers : gset nat;
  moveend : list FlyEndHandler;
  flights : list FlyTarget
}.

(** [map.hasLayer(x)]: [L.stamp(x) in this._layers]. *)
Definition hasLayer (m : MapWidget) (x : nat) : bool :=
  bool_decide (x ∈ map_layers m).

(** ** The page *)

Record Slide : Type := {
  slide_id : string;
  offsetTop : Q;
  showpopups : bool;
  hidden : bool
}.

(** ** The SlideDeck object *)

Record SlideDeck : Type := {
  container_offsetTop : Q;
  slides : list Slide;
  map : MapWidget;
  slideOptions : gmap string Options;
  dataLayer_stamp : nat;
  dataLayer : list GeoJSONLayer;
  legend : Control;
  currentSlideIndex : Z
}.

(** Field updates. *)
Definition with_map (m : MapWidget) (d : SlideDeck) : SlideDeck :=
  {| container_offsetTop := container_offsetTop d; slides := slides d;
     map := m; slideOptions := slideOptions d;
     dataLayer_stamp := dataLayer_stamp d; dataLayer := dataLayer d;
     legend := legend d;
     currentSlideIndex := currentSlideIndex d |}.

Definition with_dataLayer (g : list GeoJSONLayer) (d : SlideDeck)
  : SlideDeck :=
  {| container_offsetTop := container_offsetTop d; slides := slides d;
     map := map d; slideOptions := slideOptions d;
     dataLayer_stamp := dataLayer_stamp d; dataLayer := g;
     legend := legend d;
     currentSlideIndex := currentSlideIndex d |}.

Definition with_slides (s : list Slide) (d : SlideDeck) : SlideDeck :=
  {| container_offsetTop := container_offsetTop d; slides := s;
     map := map d; slideOptions := slideOptions d;
     dataLayer_stamp := dataLayer_stamp d; dataLayer := dataLayer d;
     legend := legend d;
     currentSlideIndex := currentSlideIndex d |}.

Definition with_legend (c : Control) (d : SlideDeck) : SlideDeck :=
  {| container_offsetTop := container_offsetTop d; slides := slides d;
     map := map d; slideOptions := slideOptions d;
     dataLayer_stamp := dataLayer_stamp d; dataLayer := dataLayer d;
     legend := c; currentSlideIndex := currentSlideIndex d |}.

Definition with_index (i : Z) (d : SlideDeck) : SlideDeck :=
  {| container_offsetTop := container_offsetTop d; slides := slides d;
     map := map d; slideOptions := slideOptions d;
     dataLayer_stamp := dataLayer_stamp d; dataLayer := dataLayer d;
     legend := legend d; currentSlideIndex := i |}.

Definition with_lastId (n : nat) (m : MapWidget) : MapWidget :=
  {| lastId := n; map_layers := map_layers m; moveend := moveend m;
     flights := flights m |}.

Definition with_map_layers (s : gset nat) (m : MapWidget) : MapWidget :=
  {| lastId := lastId m; map_layers := s; moveend := moveend m;
     flights := flights m |}.

Definition with_moveend (h : list FlyEndHandler) (m : MapWidget)
  : MapWidget :=
  {| lastId := lastId m; map_layers := map_layers m; moveend := h;
     flights := flights m |}.

Definition with_flights (f : list FlyTarget) (m : MapWidget) : MapWidget :=
  {| lastId := lastId m; map_layers := map_layers m; moveend := moveend m;
     flights := f |}.

(** ** The state-and-error monad of the deck *)

Definition M (A : Type) : Type := SlideDeck -> outcome A * SlideDeck.

Definition ret {A : Type} (a : A) : M A := fun d => (Ok a, d).

Definition throw {A : Type} (e : error) : M A := fun d => (Throw e, d).

Definition bind {A B : Type} (m : M A) (k : A -> M B) : M B :=
  fun d =>
    match m d with
    | (Ok a, d') => k a d'
    | (Throw e, d') => (Throw e, d')
    end.

Definition lift {A : Type} (o : outcome A) : M A := fun d => (o, d).

Definition update (f : SlideDeck -> SlideDeck) : M unit :=
  fun d => (Ok tt, f d).

Declare Scope deck_scope.
Delimit Scope deck_scope with deck.
Notation "x <- c ;; k" := (bind c (fun x => k))
  (at level 100, c at next level, right associativity) : deck_scope.
Notation "c ;; k" := (bind c (fun _ => k))
  (at level 100, right associativity) : deck_scope.

(** ** pointStyle *)

Section Rendering.
Context `{!JsRuntime}.

Definition pointStyle (feature : Feature) : Style :=
  let mag :=
    match properties feature with
    | Some props =>
        if negb (is_undefined (prop props "magnitudo"))
        then prop props "magnitudo"
        else VNull
    | None => VNull
    end in
  let fillColor :=
    if negb (is_null mag) then
      if js_ge mag 9.0 then "#da2d2d"
      else if js_ge mag 8.0 then "#ff7a00"
      else if js_ge mag 7.0 then "#f7fd04"
      else "#ffefcf"
    else "#ffefcf" in
  {| radius := Some 2;
     fillColor := Some fillColor;
     color := Some "#000";
     weight := Some 0;
     opacity := Some 1;
     fillOpacity := Some 0.8 |}.

(** ** updateDataLayer and its default options *)

Definition nl : string := String (ascii_of_nat 10) EmptyString.
Definition indent10 : string := "          ".
Definition indent8 : string := "        ".

(** [${v || placeholder}] *)
Definition field_text (v : value) (placeholder : string) : string :=
  to_string (js_or v (VStr placeholder)).

(** [(props.date || 'N/A').replace('T',' ').replace('Z','')]: only a
    string has [replace]. *)
Definition date_text (v : value) : outcome string :=
  match js_or v (VStr "N/A") with
  | VStr s => Ok (replace_first "Z" "" (replace_first "T" " " s))
  | _ => Throw TypeError
  end.

(** The template literal of the default [onEachFeature]. *)
Definition popup_content (props : gmap string value) : outcome string :=
  match date_text (prop props "date") with
  | Throw e => Throw e
  | Ok date =>
      Ok (nl +:+ indent10 +:+ "<b>"
            +:+ field_text (prop props "place") "Unknown Location"
            +:+ "</b><br>" +:+ nl
          +:+ indent10 +:+ "Magnitude: "
            +:+ field_text (prop props "magnitudo") "N/A"
            +:+ "<br>" +:+ nl
          +:+ indent10 +:+ "Depth: "
            +:+ field_text (prop props "depth") "N/A"
            +:+ " km<br>" +:+ nl
          +:+ indent10 +:+ "Date: " +:+ date +:+ "<br>" +:+ nl
          +:+ indent10 +:+ "Country/Region: "
            +:+ field_text (prop props "state") "N/A" +:+ nl
          +:+ indent8)
  end.

Definition default_onEachFeature (feature : Feature)
  : outcome (list LayerCall) :=
  match properties feature with
  | None => Throw TypeError
  | Some props =>
      match popup_content props with
      | Throw e => Throw e
      | Ok content => Ok [BindPopup content]
      end
  end.

Definition defaultOptions : Options :=
  {| pointToLayer :=
       Some (fun feature latlng => (CircleMarker, pointStyle feature));
     style_of := None;
     onEachFeature := Some default_onEachFeature |}.

(** *** Leaflet: [L.geoJSON], [LayerGroup] *)

(** [++lastId]: the stamp of a newly made object. *)
Definition fresh : M nat :=
  fun d =>
    let id := S (lastId (map d)) in
    (Ok id, with_map (with_lastId id (map d)) d).

Definition geometryToLayer (options : Options) (f : Feature)
  : LayerKind * Style :=
  match geometry f with
  | Point lng lat =>
      match pointToLayer options with
      | Some mk => mk f (lat, lng)
      | None => (Marker, no_style)
      end
  | Shape _ => (Path, no_style)
  end.

(** [_setLayerStyle]: a marker has no [setStyle]. *)
Definition setLayerStyle (options : Options) (k : LayerKind) (f : Feature)
  (s : Style) : Style :=
  match k, style_of options with
  | Marker, _ => s
  | _, Some st => setStyle (st f) s
  | _, None => s
  end.

(** [addData] over the features of a collection, in order. *)
Fixpoint addData (options : Options) (fs : list Feature)
  : M (list Layer) :=
  match fs with
  | [] => ret []
  | f :: rest =>
      (id <- fresh ;;
       let (k, s) := geometryToLayer options f in
       let layer :=
         {| stamp := id; feature := f; kind := k;
            style := setLayerStyle options k f s;
            popup := None; tooltip := None |} in
       calls <- match onEachFeature options with
                | Some cb => lift (cb f)
                | None => ret []
                end ;;
       layers <- addData options rest ;;
       ret (foldl apply_call layer calls :: layers))%deck
  end.

Definition geoJSON (data : FeatureCollection) (options : Options)
  : M GeoJSONLayer :=
  (id <- fresh ;;
   layers <- addData options (features data) ;;
   ret {| gj_stamp := id; gj_layers := layers |})%deck.

(** The stamps a feature group occupies in [map._layers] while it is
    on the map: its own and its members'. *)
Definition stamps_of (g : GeoJSONLayer) : gset nat :=
  {[ gj_stamp g ]} ∪ list_to_set (stamp <$> gj_layers g).

Definition clearLayers : M unit :=
  update (fun d =>
    with_dataLayer []
      (with_map
         (with_map_layers
            (map_layers (map d) ∖ ⋃ (stamps_of <$> dataLayer d)) (map d))
         d)).

(** [g.addTo(this.dataLayer)]; the data layer is on the map. *)
Definition addTo_dataLayer (g : GeoJSONLayer) : M unit :=
  update (fun d =>
    with_dataLayer (dataLayer d ++ [g])
      (with_map
         (with_map_layers (map_layers (map d) ∪ stamps_of g) (map d)) d)).

(** [FeatureGroup.bindTooltip]: binds on every member. *)
Definition group_bindTooltip (c : TooltipContent) (g : GeoJSONLayer)
  : GeoJSONLayer :=
  {| gj_stamp := gj_stamp g;
     gj_layers := bindTooltip c false <$> gj_layers g |}.

Definition updateDataLayer (data : FeatureCollection)
  (options : option Options) : M GeoJSONLayer :=
  (clearLayers ;;
   g <- geoJSON data (default defaultOptions options) ;;
   let geoJsonLayer := group_bindTooltip TipLabelOfLayer g in
   addTo_dataLayer geoJsonLayer ;;
   ret geoJsonLayer)%deck.
End Rendering.

(** ** The methods of SlideDeck *)

Section Deck.
Context `{!JsRuntime}.
(** The answer of the server to [fetch(url)] followed by
    [resp.json()]; [None] when the request or the decoding fails. *)
Context (fetch_json : string -> option FeatureCollection).

(** The constructor: the data layer group is made and added to the
    map, the legend control is made, the index starts at 0. (Leaflet
    stamps the legend at the first [L.stamp] call on it rather than
    at creation; only the stamps being distinct matters. The markup
    that [legend.onAdd] builds is left out.) *)
Definition new_SlideDeck (container_offsetTop : Q) (slides : list Slide)
  (map : MapWidget) (slideOptions : gmap string Options) : SlideDeck :=
  let dataLayer_id := S (lastId map) in
  let legend_id := S dataLayer_id in
  {| container_offsetTop := container_offsetTop;
     slides := slides;
     map := with_map_layers (map_layers map ∪ {[ dataLayer_id ]})
              (with_lastId legend_id map);
     slideOptions := slideOptions;
     dataLayer_stamp := dataLayer_id;
     dataLayer := [];
     legend := {| ctl_stamp := legend_id; ctl_on := false; ctl_log := [] |};
     currentSlideIndex := 0 |}.

Definition getSlideFeatureCollection (slide : Slide)
  : M FeatureCollection :=
  match fetch_json ("data/" +:+ slide_id slide +:+ ".json") with
  | Some data => ret data
  | None => throw FetchError
  end.

(** [preloadFeatureCollections()]: every fetch is started and its
    promise dropped. *)
Definition preloadFeatureCollections (d : SlideDeck) : SlideDeck :=
  foldl (fun d slide => snd (getSlideFeatureCollection slide d)) d (slides d).

Definition hideAllSlides (d : SlideDeck) : SlideDeck :=
  with_slides
    ((fun slide =>
        {| slide_id := slide_id slide; offsetTop := offsetTop slide;
           showpopups := showpopups slide; hidden := true |})
       <$> slides d) d.

(** [this.map.addEventListener('moveend', handleFlyEnd)] *)
Definition addEventListener_moveend (h : FlyEndHandler) : M unit :=
  update (fun d => with_map (with_moveend (h :: moveend (map d)) (map d)) d).

(** [boundsFromBbox], the local function of [syncMapToSlide]. *)
Definition boundsFromBbox (bbox : Q * Q * Q * Q) : option FlyTarget :=
  let '(west, south, east, north) := bbox in
  Some (FlyBbox west south east north).

(** [layer.getBounds()]: the bounds of a group extend over its
    members; without a member that has a position they are not valid
    bounds, which is [None]. *)
Definition has_extent (l : Layer) : bool :=
  match geometry (feature l) with
  | Point _ _ => true
  | Shape [] => false
  | Shape (_ :: _) => true
  end.

Definition getBounds (g : GeoJSONLayer) : option FlyTarget :=
  if existsb has_extent (gj_layers g)
  then Some (FlyLayerBounds (gj_stamp g))
  else None.

(** [this.map.flyToBounds(bounds)]: Leaflet reads the corners of the
    bounds, which throws when they are not valid. *)
Definition flyToBounds (bounds : option FlyTarget) : M unit :=
  match bounds with
  | Some t =>
      update (fun d =>
        with_map (with_flights (t :: flights (map d)) (map d)) d)
  | None => throw TypeError
  end.

(** [this.legend.addTo(this.map)]: [Control.addTo] first removes the
    control from the map it is on, then attaches it. *)
Definition legend_addTo : M unit :=
  update (fun d =>
    with_legend
      {| ctl_stamp := ctl_stamp (legend d); ctl_on := true;
         ctl_log := AddTo :: ctl_log (legend d) |} d).

(** [this.map.removeControl(this.legend)] *)
Definition removeControl_legend : M unit :=
  update (fun d =>
    with_legend
      {| ctl_stamp := ctl_stamp (legend d); ctl_on := false;
         ctl_log := RemoveControl :: ctl_log (legend d) |} d).

(** [this.map.hasLayer(this.legend)] *)
Definition hasLayer_legend : M bool :=
  fun d => (Ok (hasLayer (map d) (ctl_stamp (legend d))), d).

(** [this.slideOptions[slide.id]] *)
Definition options_for (slide : Slide) : M (option Options) :=
  fun d => (Ok (slideOptions d !! slide_id slide), d).

(** [syncMapToSlide(slide)]; [slide] is [None] for [undefined], on
    which [slide.id] (in [getSlideFeatureCollection]) throws. *)
Definition syncMapToSlide (slide : option Slide) : M unit :=
  match slide with
  | None => throw TypeError
  | Some slide =>
      (collection <- getSlideFeatureCollection slide ;;
       options <- options_for slide ;;
       layer <- updateDataLayer collection options ;;
       addEventListener_moveend
         {| h_showpopups := showpopups slide; h_layer := gj_stamp layer |} ;;
       match bbox collection with
       | Some bbox => flyToBounds (boundsFromBbox bbox)
       | None => flyToBounds (getBounds layer)
       end ;;
       shown <- hasLayer_legend ;;
       if String.eqb (slide_id slide) "title-slide" then
         if negb shown then legend_addTo else ret tt
       else
         if shown then removeControl_legend else ret tt)%deck
  end.

(** [this.slides[i]] *)
Definition slide_at (d : SlideDeck) (i : Z) : option Slide :=
  if (i <? 0)%Z then None else slides d !! Z.to_nat i.

(** [syncMapToCurrentSlide()]: the promise of [syncMapToSlide] is
    neither awaited nor returned, so its rejection reaches no
    caller. *)
Definition syncMapToCurrentSlide (d : SlideDeck) : SlideDeck :=
  let slide := slide_at d (currentSlideIndex d) in
  snd (syncMapToSlide slide d).

Definition goNextSlide (d : SlideDeck) : SlideDeck :=
  let d := with_index (currentSlideIndex d + 1) d in
  let d :=
    if (currentSlideIndex d =? Z.of_nat (length (slides d)))%Z
    then with_index 0 d else d in
  syncMapToCurrentSlide d.

Definition goPrevSlide (d : SlideDeck) : SlideDeck :=
  let d := with_index (currentSlideIndex d - 1) d in
  let d :=
    if (currentSlideIndex d <? 0)%Z
    then with_index (Z.of_nat (length (slides d)) - 1) d else d in
  syncMapToCurrentSlide d.

(** The trigger line of a slide. *)
Definition slidePos (scrollPos windowHeight : Q) (slide : Slide) : Q :=
  offsetTop slide - scrollPos + windowHeight * 0.7.

(** The [for] loop of [calcCurrentSlideIndex], entered at index [i]
    with the slides from [i] on still to visit; its value is [i]
    after the loop. *)
Fixpoint scan (scrollPos windowHeight : Q) (i : nat) (rest : list Slide)
  : nat :=
  match rest with
  | [] => i
  | slide :: rest' =>
      if Qle_bool 0 (slidePos scrollPos windowHeight slide) then i
      else scan scrollPos windowHeight (S i) rest'
  end.

(** The index the loop computes, given [window.scrollY] and
    [window.innerHeight]. *)
Definition computedIndex (d : SlideDeck) (scrollY innerHeight : Q) : nat :=
  let scrollPos := scrollY - container_offsetTop d in
  let windowHeight := innerHeight in
  scan scrollPos windowHeight 0 (slides d).

Definition calcCurrentSlideIndex (scrollY innerHeight : Q) (d : SlideDeck)
  : SlideDeck :=
  let i := Z.of_nat (computedIndex d scrollY innerHeight) in
  if negb (i =? currentSlideIndex d)%Z
  then syncMapToCurrentSlide (with_index i d)
  else d.
End Deck.

(** ** The page of index.js *)

(** The options index.js passes for its second and third slide. *)
Definition label_tooltip (feature : Feature) : outcome (list LayerCall) :=
  match properties feature with
  | None => Throw TypeError
  | Some props => Ok [BindTooltip (TipValue (prop props "label")) false]
  end.

Definition index_slideOptions : gmap string Options :=
  {[ "second-slide" :=
       {| pointToLayer := None;
          style_of := Some (fun _ =>
            {| radius := None; fillColor := Some "green";
               color := Some "red"; weight := None; opacity := None;
               fillOpacity := Some 0.5 |});
          onEachFeature := Some label_tooltip |};
     "third-slide" :=
       {| pointToLayer := None;
          style_of := Some (fun _ =>
            {| radius := None; fillColor := Some "yellow";
               color := Some "blue"; weight := None; opacity := None;
               fillOpacity := Some 0.5 |});
          onEachFeature := Some label_tooltip |} ]}.

(** The map index.js creates: one tile layer on it. *)
Definition index_map : MapWidget :=
  {| lastId := 1; map_layers := {[ 1%nat ]}; moveend := []; flights := [] |}.

(** ** A worked page *)

(** A fragment of the engine's conversions: numbers with a finite
    decimal expansion print as JavaScript prints them (no exponent
    form), and strings of decimal digits, or the empty string, read as
    numbers. *)
Fixpoint frac_digits (fuel : nat) (num den : Z) : string :=
  match fuel with
  | O => ""
  | S fuel' =>
      if (num =? 0)%Z then ""
      else pretty (10 * num / den)%Z
           +:+ frac_digits fuel' (10 * num mod den)%Z den
  end.

Definition decimal_to_string (q : Q) : string :=
  let n := Z.abs (Qnum q) in
  let d := Zpos (Qden q) in
  (if (Qnum q <? 0)%Z then "-" else "")
  +:+ pretty (n / d)%Z
  +:+ (if (n mod d =? 0)%Z then "" else "." +:+ frac_digits 20 (n mod d)%Z d).

Fixpoint digits_value (acc : Z) (s : string) : option Z :=
  match s with
  | EmptyString => Some acc
  | String c rest =>
      let n := Z.of_nat (nat_of_ascii c) in
      if ((48 <=? n) && (n <=? 57))%Z
      then digits_value (10 * acc + (n - 48))%Z rest
      else None
  end.

#[export] Instance page_runtime : JsRuntime :=
  {| number_to_string := decimal_to_string;
     string_to_number := fun s => inject_Z <$> digits_value 0 s |}.

Definition quake (place : string) (mag : Q) (lng lat : Q) : Feature :=
  {| properties :=
       Some (<["place" := VStr place]>
             (<["magnitudo" := VNum mag]>
              (<["date" := VStr "2011-03-11T05:46:24Z"]>
               (<["label" := VStr place]> ∅))));
     geometry := Point lng lat |}.

Definition title_data : FeatureCollection :=
  {| features := [quake "Tohoku" 9.1 142.4 38.3; quake "Sumatra" 8.6 93.1 2.3];
     bbox := None |}.

Definition second_data : FeatureCollection :=
  {| features :=
       [ {| properties := Some (<["label" := VStr "Ring of Fire"]> ∅);
            geometry := Shape [(120, -40); (180, 60)] |} ];
     bbox := Some (120, -40, 180, 60) |}.

(** The server has data for the first two slides and none for the
    third. *)
Definition page_fetch (url : string) : option FeatureCollection :=
  if String.eqb url "data/title-slide.json" then Some title_data
  else if String.eqb url "data/second-slide.json" then Some second_data
  else None.

Definition page_slides : list Slide :=
  [ {| slide_id := "title-slide"; offsetTop := 0;
       showpopups := false; hidden := false |};
    {| slide_id := "second-slide"; offsetTop := 900;
       showpopups := false; hidden := false |};
    {| slide_id := "third-slide"; offsetTop := 1800;
       showpopups := false; hidden := false |} ].

(** The deck of index.js once the script has run: constructed,
    preloaded and synchronised to its first slide. *)
Definition page_deck : SlideDeck :=
  syncMapToCurrentSlide page_fetch
    (preloadFeatureCollections page_fetch
       (new_SlideDeck 0 page_slides index_map index_slideOptions)).

(** The two renders the page makes on its way from the title slide to
    the second slide, as calls of [updateDataLayer] on a new deck. *)
Definition first_render : outcome GeoJSONLayer * SlideDeck :=
  updateDataLayer title_data None
    (new_SlideDeck 0 page_slides index_map index_slideOptions).

Definition first_layer : GeoJSONLayer :=
  match fst first_render with
  | Ok layer => layer
  | Throw _ => {| gj_stamp := 0; gj_layers := [] |}
  end.

Definition second_render : outcome GeoJSONLayer * SlideDeck :=
  updateDataLayer second_data (index_slideOptions !! "second-slide")
    (snd first_render).

(** ** Notions the properties are stated with *)


(** The index [goNextSlide] and [goPrevSlide] move to. *)
Definition next_index (d : SlideDeck) : Z :=
  let i := (currentSlideIndex d + 1)%Z in
  if (i =? Z.of_nat (length (slides d)))%Z then 0%Z else i.

Definition prev_index (d : SlideDeck) : Z :=
  let i := (currentSlideIndex d - 1)%Z in
  if (i <? 0)%Z then (Z.of_nat (length (slides d)) - 1)%Z else i.

(** The magnitude of a feature as a number, when it has one: the
    numeric reading of its [magnitudo] property. A feature without
    properties or without that property has none, and neither has one
    whose [magnitudo] is [null] or does not read as a number. *)
Definition magnitude `{!JsRuntime} (feature : Feature) : option Q :=
  match properties feature with
  | None => None
  | Some props =>
      match props !! "magnitudo" with
      | None | Some VUndefined | Some VNull => None
      | Some v => to_number v
      end
  end.

(** [keeps R m]: whatever [m] returns or throws, the state it leaves is
    related by [R] to the state it started from. *)
Definition keeps {A : Type} (R : SlideDeck -> SlideDeck -> Prop) (m : M A)
  : Prop :=
  forall d, R d (snd (m d)).

(** The part of the deck that belongs to the page and to navigation. *)
Definition same_page (d d' : SlideDeck) : Prop :=
  slides d' = slides d /\
  currentSlideIndex d' = currentSlideIndex d /\
  container_offsetTop d' = container_offsetTop d /\
  slideOptions d' = slideOptions d.

(** What the allocation of stamps changes: only [lastId], upwards. *)
Definition only_stamps (d d' : SlideDeck) : Prop :=
  dataLayer d' = dataLayer d /\
  legend d' = legend d /\
  map_layers (map d') = map_layers (map d) /\
  moveend (map d') = moveend (map d) /\
  flights (map d') = flights (map d) /\
  (lastId (map d) <= lastId (map d'))%nat.

(** Stamps are given out in increasing order, so every stamp in use is
    at most [lastId]; the legend has one and, being a control, is not
    in the layer table of the map. *)
Definition stamps_ok (d : SlideDeck) : Prop :=
  (forall x, x ∈ map_layers (map d) -> (x <= lastId (map d))%nat) /\
  (ctl_stamp (legend d) <= lastId (map d))%nat /\
  ctl_stamp (legend d) ∉ map_layers (map d).

(** The events the page reacts to, and the decks a session can reach
    from the deck the constructor makes on a map whose stamps are in
    order. *)
Inductive event : Type :=
| Next
| Prev
| Scroll (scrollY innerHeight : Q).

Definition handle `{!JsRuntime}
  (fetch_json : string -> option FeatureCollection) (e : event)
  (d : SlideDeck) : SlideDeck :=
  match e with
  | Next => goNextSlide fetch_json d
  | Prev => goPrevSlide fetch_json d
  | Scroll scrollY innerHeight =>
      calcCurrentSlideIndex fetch_json scrollY innerHeight d
  end.

Inductive reachable `{!JsRuntime}
  (fetch_json : string -> option FeatureCollection) : SlideDeck -> Prop :=
| reach_start top slides m options :
    (forall x, x ∈ map_layers m -> (x <= lastId m)%nat) ->
    reachable fetch_json
      (syncMapToCurrentSlide fetch_json
         (preloadFeatureCollections fetch_json
            (new_SlideDeck top slides m options)))
| reach_step d e :
    reachable fetch_json d -> reachable fetch_json (handle fetch_json e d).

(** Exactly the slide at the current index is visible. *)
Definition only_current_visible (d : SlideDeck) : Prop :=
  forall j slide, slides d !! j = Some slide ->
    (hidden slide = false <-> Z.of_nat j = currentSlideIndex d).

(** ** Notions for the further properties *)

(** Whether the character [c] occurs in [s]. *)
Fixpoint occurs (c : ascii) (s : string) : bool :=
  match s with
  | EmptyString => false
  | String a rest => Ascii.eqb a c || occurs c rest
  end.

(** A session: events handled one after the other. *)
Definition run `{!JsRuntime}
  (fetch_json : string -> option FeatureCollection) (events : list event)
  (d : SlideDeck) : SlideDeck :=
  foldl (fun d e => handle fetch_json e d) d events.

Definition is_navigation (e : event) : Prop :=
  match e with
  | Next | Prev => True
  | Scroll _ _ => False
  end.


(** What [addData] makes of one feature, given the stamp it takes. *)
Definition layer_of (options : Options) (id : nat) (f : Feature)
  : outcome Layer :=
  let (k, s) := geometryToLayer options f in
  let layer :=
    {| stamp := id; feature := f; kind := k;
       style := setLayerStyle options k f s;
       popup := None; tooltip := None |} in
  match onEachFeature options with
  | Some cb =>
      match cb f with
      | Ok calls => Ok (foldl apply_call layer calls)
      | Throw e => Throw e
      end
  | None => Ok layer
  end.

(** The [onEachFeature] callback of [options], if there is one,
    returns on [f]. *)
Definition accepts (options : Options) (f : Feature) : Prop :=
  match onEachFeature options with
  | Some cb => exists calls, cb f = Ok calls
  | None => True
  end.

(** The overlay and the layer table of the map agree: at most one
    rendered group, and all of it on the map. *)
Definition overlay_ok (d : SlideDeck) : Prop :=
  (length (dataLayer d) <= 1)%nat /\
  forall g x, g ∈ dataLayer d -> x ∈ stamps_of g -> x ∈ map_layers (map d).

(** A dataset with a feature whose [properties] is [null], and a
    server that answers every request with it. *)
Definition null_properties_data : FeatureCollection :=
  {| features :=
       [quake "Tohoku" 9.1 142.4 38.3;
        {| properties := None; geometry := Point 0 0 |}];
     bbox := None |}.

Definition null_properties_fetch (url : string) : option FeatureCollection :=
  Some null_properties_data.

(** The page scrolled past its last slide, the same page in a
    container 100 pixels further down, and renders used as instances
    below. *)
Definition past_end_deck : SlideDeck :=
  calcCurrentSlideIndex page_fetch 5000 800 page_deck.


Definition null_properties_render : outcome GeoJSONLayer * SlideDeck :=
  updateDataLayer null_properties_data
    (slideOptions page_deck !! "title-slide") page_deck.

Definition bbox_render : outcome GeoJSONLayer * SlideDeck :=
  updateDataLayer second_data
    (slideOptions page_deck !! "second-slide") page_deck.

Definition bbox_layer : GeoJSONLayer :=
  match fst bbox_render with
  | Ok layer => layer
  | Throw _ => {| gj_stamp := 0; gj_layers := [] |}
  end.

(** * Properties *)

(** ** The scroll tracker *)


Lemma Qle_bool_false x y : Qle_bool x y = false -> y < x.
Proof.
  intros H. apply Qnot_le_lt. intros Hle.
  apply Qle_bool_iff in Hle. congruence.
Qed.

(** The loop stops at the first slide from [i] on whose trigger line is
    not negative, or runs off the end. *)
Lemma scan_spec scrollPos windowHeight rest : forall i,
  exists k : nat,
    scan scrollPos windowHeight i rest = (i + k)%nat /\
    (k <= length rest)%nat /\
    (forall j slide, (j < k)%nat -> rest !! j = Some slide ->
       slidePos scrollPos windowHeight slide < 0) /\
    (forall slide, rest !! k = Some slide ->
       0 <= slidePos scrollPos windowHeight slide).
Proof.
  induction rest as [|s rest IH]; intros i; simpl.
  - exists 0%nat. repeat split; try lia; intros; simplify_eq.
  - destruct (Qle_bool 0 (slidePos scrollPos windowHeight s)) eqn:Hs.
    + exists 0%nat. repeat split; try lia.
      intros slide Hl. simpl in Hl. simplify_eq.
      by apply Qle_bool_iff.
    + destruct (IH (S i)) as (k & Hk & Hlen & Hbefore & Hat).
      exists (S k). repeat split; try lia.
      * intros [|j] slide Hj Hl; simpl in Hl.
        -- simplify_eq. by apply Qle_bool_false.
        -- apply (Hbefore j); [lia | done].
      * intros slide Hl. simpl in Hl. by apply Hat.
Qed.





(** ** What a transition leaves alone *)

Section Keeps.
Context (R : SlideDeck -> SlideDeck -> Prop).
Context `{!Reflexive R, !Transitive R}.

Lemma keeps_ret {A} (a : A) : keeps R (ret a).
Proof. intros d. simpl. reflexivity. Qed.

Lemma keeps_throw {A} (e : error) : keeps R (throw (A:=A) e).
Proof. intros d. simpl. reflexivity. Qed.

Lemma keeps_lift {A} (o : outcome A) : keeps R (lift o).
Proof. intros d. simpl. reflexivity. Qed.

Lemma keeps_update (f : SlideDeck -> SlideDeck) :
  (forall d, R d (f d)) -> keeps R (update f).
Proof. intros Hf d. apply Hf. Qed.

Lemma keeps_bind {A B} (m : M A) (k : A -> M B) :
  keeps R m -> (forall a, keeps R (k a)) -> keeps R (bind m k).
Proof.
  intros Hm Hk d. unfold bind. specialize (Hm d).
  destruct (m d) as [[a|e] d']; simpl in *; [|done].
  etrans; [exact Hm | apply Hk].
Qed.
End Keeps.

#[local] Instance same_page_refl : Reflexive same_page.
Proof. by intros d. Qed.

#[local] Instance same_page_trans : Transitive same_page.
Proof.
  intros a b c (?&?&?&?) (?&?&?&?). repeat split; congruence.
Qed.

Ltac keeps_step :=
  first
    [ apply keeps_ret; tc_solve
    | apply keeps_throw; tc_solve
    | apply keeps_lift; tc_solve
    | apply keeps_update; intros ?; done
    | (apply keeps_bind; try tc_solve); [|intros ?] ].

Section DeckProperties.
Context `{!JsRuntime}.
Context (fetch_json : string -> option FeatureCollection).

Lemma fresh_same_page : keeps same_page fresh.
Proof. intros d. done. Qed.

Lemma addData_same_page options fs : keeps same_page (addData options fs).
Proof.
  induction fs as [|f fs IH]; simpl; [keeps_step|].
  apply keeps_bind; try tc_solve; [apply fresh_same_page|]. intros id.
  destruct (geometryToLayer options f) as [k s].
  apply keeps_bind; try tc_solve.
  { destruct (onEachFeature options); keeps_step. }
  intros calls. apply keeps_bind; try tc_solve; [done|]. intros; keeps_step.
Qed.

Lemma updateDataLayer_same_page data options :
  keeps same_page (updateDataLayer data options).
Proof.
  unfold updateDataLayer, geoJSON, clearLayers, addTo_dataLayer.
  repeat first [apply fresh_same_page | apply addData_same_page | keeps_step].
Qed.

Lemma syncMapToSlide_same_page slide :
  keeps same_page (syncMapToSlide fetch_json slide).
Proof.
  destruct slide as [slide|]; simpl; [|keeps_step].
  unfold getSlideFeatureCollection, options_for, hasLayer_legend,
    addEventListener_moveend, flyToBounds, legend_addTo,
    removeControl_legend.
  apply keeps_bind; try tc_solve.
  { destruct (fetch_json _); keeps_step. }
  intros collection. apply keeps_bind; try tc_solve; [by intros d|].
  intros options. apply keeps_bind; try tc_solve;
    [apply updateDataLayer_same_page|].
  intros layer. apply keeps_bind; try tc_solve; [keeps_step|]. intros _.
  apply keeps_bind; try tc_solve.
  { destruct (bbox collection) as [[[[w s] e] n]|]; simpl;
      [|destruct (getBounds layer)]; keeps_step. }
  intros _. apply keeps_bind; try tc_solve; [by intros d|].
  intros shown.
  destruct (String.eqb _ _), shown; simpl; keeps_step.
Qed.

Lemma syncMapToCurrentSlide_same_page d :
  same_page d (syncMapToCurrentSlide fetch_json d).
Proof. apply syncMapToSlide_same_page. Qed.

(** ** Navigation *)

Lemma goNextSlide_unfold d :
  goNextSlide fetch_json d
  = syncMapToCurrentSlide fetch_json (with_index (next_index d) d).
Proof.
  unfold goNextSlide, next_index. simpl.
  by destruct (_ =? _)%Z.
Qed.

Lemma goPrevSlide_unfold d :
  goPrevSlide fetch_json d
  = syncMapToCurrentSlide fetch_json (with_index (prev_index d) d).
Proof.
  unfold goPrevSlide, prev_index. simpl.
  by destruct (_ <? _)%Z.
Qed.

Lemma goNextSlide_index d :
  currentSlideIndex (goNextSlide fetch_json d) = next_index d /\
  slides (goNextSlide fetch_json d) = slides d.
Proof.
  rewrite goNextSlide_unfold.
  destruct (syncMapToCurrentSlide_same_page (with_index (next_index d) d))
    as (Hs & Hi & _).
  by rewrite Hs, Hi.
Qed.

Lemma goPrevSlide_index d :
  currentSlideIndex (goPrevSlide fetch_json d) = prev_index d /\
  slides (goPrevSlide fetch_json d) = slides d.
Proof.
  rewrite goPrevSlide_unfold.
  destruct (syncMapToCurrentSlide_same_page (with_index (prev_index d) d))
    as (Hs & Hi & _).
  by rewrite Hs, Hi.
Qed.

(** Both navigation methods keep a valid index valid. *)
Lemma navigation_keeps_range d :
  (0 <= currentSlideIndex d < Z.of_nat (length (slides d)))%Z ->
  (0 <= next_index d < Z.of_nat (length (slides d)))%Z /\
  (0 <= prev_index d < Z.of_nat (length (slides d)))%Z.
Proof.
  intros Hr. unfold next_index, prev_index. simpl.
  destruct (Z.eqb_spec (currentSlideIndex d + 1)
              (Z.of_nat (length (slides d))));
    destruct (Z.ltb_spec (currentSlideIndex d - 1) 0); lia.
Qed.

Lemma iter_goNextSlide_slides k d :
  slides (Nat.iter k (goNextSlide fetch_json) d) = slides d.
Proof.
  induction k as [|k IH]; simpl; [done|].
  destruct (goNextSlide_index (Nat.iter k (goNextSlide fetch_json) d))
    as [_ ->]. done.
Qed.

Lemma iter_goNextSlide_index k d :
  currentSlideIndex d = 0%Z ->
  (k < length (slides d))%nat ->
  currentSlideIndex (Nat.iter k (goNextSlide fetch_json) d) = Z.of_nat k.
Proof.
  intros H0. induction k as [|k IH]; intros Hk; simpl; [done|].
  destruct (goNextSlide_index (Nat.iter k (goNextSlide fetch_json) d))
    as [-> _].
  unfold next_index. simpl.
  rewrite iter_goNextSlide_slides, IH by lia.
  destruct (Z.eqb_spec (Z.of_nat k + 1) (Z.of_nat (length (slides d))));
    lia.
Qed.

(** C6. With at least one slide and the index at 0, [goNextSlide]
    called as many times as there are slides brings the index back to
    0; on the way the k-th call leaves the index at k: each call adds
    1, and the call that would pass the last slide wraps to 0. *)
Theorem goNextSlide_cycle (d : SlideDeck) :
  (1 <= length (slides d))%nat ->
  currentSlideIndex d = 0%Z ->
  (forall k, (k < length (slides d))%nat ->
     currentSlideIndex (Nat.iter k (goNextSlide fetch_json) d)
     = Z.of_nat k) /\
  currentSlideIndex
    (Nat.iter (length (slides d)) (goNextSlide fetch_json) d) = 0%Z.
Proof.
  intros HN H0. split; [intros k Hk; by apply iter_goNextSlide_index|].
  destruct (length (slides d)) as [|n] eqn:Hlen; [lia|]. simpl.
  destruct (goNextSlide_index (Nat.iter n (goNextSlide fetch_json) d))
    as [-> _].
  unfold next_index. simpl.
  rewrite iter_goNextSlide_slides, iter_goNextSlide_index by lia.
  rewrite Hlen.
  destruct (Z.eqb_spec (Z.of_nat n + 1) (Z.of_nat (S n))); lia.
Qed.

(** ** A failed resolve *)

(** C2. When the dataset of the entering slide cannot be resolved,
    [syncMapToSlide] throws the fetch error and leaves the whole
    deck, so also the overlay, the map and the legend, as it was;
    [goNextSlide] and [goPrevSlide] then change the index and
    nothing else. *)
Theorem failed_resolve_renders_nothing (d : SlideDeck) (slide : Slide) :
  fetch_json ("data/" +:+ slide_id slide +:+ ".json") = None ->
  syncMapToSlide fetch_json (Some slide) d = (Throw FetchError, d) /\
  (slide_at d (next_index d) = Some slide ->
   goNextSlide fetch_json d = with_index (next_index d) d) /\
  (slide_at d (prev_index d) = Some slide ->
   goPrevSlide fetch_json d = with_index (prev_index d) d).
Proof.
  intros Hfetch.
  assert (Hsync : forall d',
    syncMapToSlide fetch_json (Some slide) d' = (Throw FetchError, d')).
  { intros d'. unfold syncMapToSlide, getSlideFeatureCollection, bind.
    by rewrite Hfetch. }
  split; [apply Hsync|]. split; intros Hat.
  - rewrite goNextSlide_unfold. unfold syncMapToCurrentSlide.
    change (slide_at (with_index (next_index d) d) _)
      with (slide_at d (next_index d)).
    by rewrite Hat, Hsync.
  - rewrite goPrevSlide_unfold. unfold syncMapToCurrentSlide.
    change (slide_at (with_index (prev_index d) d) _)
      with (slide_at d (prev_index d)).
    by rewrite Hat, Hsync.
Qed.

(** ** Slide visibility *)

Lemma calcCurrentSlideIndex_slides scrollY innerHeight d :
  slides (calcCurrentSlideIndex fetch_json scrollY innerHeight d)
  = slides d.
Proof.
  unfold calcCurrentSlideIndex.
  destruct (negb _); [|done].
  by destruct (syncMapToCurrentSlide_same_page
                 (with_index
                    (Z.of_nat (computedIndex d scrollY innerHeight)) d))
    as [-> _].
Qed.

(** When every trigger line is negative the loop runs off the end,
    and the number of slides is the current index afterwards. *)
Lemma calcCurrentSlideIndex_past_end scrollY innerHeight d :
  (forall slide, slide ∈ slides d ->
     slidePos (scrollY - container_offsetTop d) innerHeight slide < 0) ->
  currentSlideIndex (calcCurrentSlideIndex fetch_json scrollY innerHeight d)
  = Z.of_nat (length (slides d)).
Proof.
  intros Hall.
  assert (Hi : computedIndex d scrollY innerHeight = length (slides d)).
  { unfold computedIndex.
    destruct (scan_spec (scrollY - container_offsetTop d) innerHeight
                (slides d) 0) as (k & -> & Hlen & _ & Hat).
    simpl. destruct (slides d !! k) as [slide|] eqn:Hl.
    - pose proof (Hat slide eq_refl) as Hge.
      assert (Hin : slide ∈ slides d)
        by (eapply list_elem_of_lookup_2; eauto).
      apply Hall in Hin. lra.
    - apply lookup_ge_None in Hl. lia. }
  unfold calcCurrentSlideIndex. rewrite Hi.
  destruct (Z.eqb_spec (Z.of_nat (length (slides d))) (currentSlideIndex d))
    as [Heq|Hne]; simpl; [done|].
  by destruct (syncMapToCurrentSlide_same_page
                 (with_index (Z.of_nat (length (slides d))) d))
    as (_ & -> & _).
Qed.

(** C9, as the code has it. No transition touches the slides: after
    [syncMapToSlide], [goNextSlide], [goPrevSlide] and
    [calcCurrentSlideIndex] every slide has the hidden flag it had
    before. [hideAllSlides], which no transition calls, marks every
    slide hidden, the current one too. *)
Theorem transitions_keep_hidden_flags (d : SlideDeck) :
  (forall slide, slides (snd (syncMapToSlide fetch_json slide d))
                 = slides d) /\
  slides (goNextSlide fetch_json d) = slides d /\
  slides (goPrevSlide fetch_json d) = slides d /\
  (forall scrollY innerHeight,
     slides (calcCurrentSlideIndex fetch_json scrollY innerHeight d)
     = slides d) /\
  Forall (fun slide => hidden slide = true) (slides (hideAllSlides d)).
Proof.
  split; [|split; [|split; [|split]]].
  - intros slide. by destruct (syncMapToSlide_same_page slide d) as [-> _].
  - apply goNextSlide_index.
  - apply goPrevSlide_index.
  - intros. apply calcCurrentSlideIndex_slides.
  - unfold hideAllSlides. simpl. apply Forall_fmap, Forall_true. done.
Qed.
End DeckProperties.

(** ** Rendering *)

#[local] Instance only_stamps_refl : Reflexive only_stamps.
Proof. intros d. by repeat split. Qed.

#[local] Instance only_stamps_trans : Transitive only_stamps.
Proof.
  intros a b c (?&?&?&?&?&?) (?&?&?&?&?&?).
  repeat split; try congruence. lia.
Qed.

Section RenderingProperties.
Context `{!JsRuntime}.

Lemma fresh_only_stamps : keeps only_stamps fresh.
Proof. intros d. repeat split; simpl; lia. Qed.

Lemma addData_only_stamps options fs : keeps only_stamps (addData options fs).
Proof.
  induction fs as [|f fs IH]; simpl; [keeps_step|].
  keeps_step; [apply fresh_only_stamps|].
  destruct (geometryToLayer options f) as [k s].
  keeps_step; [destruct (onEachFeature options); keeps_step|].
  keeps_step; [done|keeps_step].
Qed.

Lemma foldl_apply_call_same l calls :
  stamp (foldl apply_call l calls) = stamp l /\
  feature (foldl apply_call l calls) = feature l.
Proof.
  revert l. induction calls as [|c calls IH]; intros l; simpl; [done|].
  destruct (IH (apply_call l c)) as [-> ->]. by destruct c.
Qed.

(** A successful [addData] makes one layer per feature, in order, each
    with a stamp that did not exist before. *)
Lemma addData_ok options fs : forall d layers d',
  addData options fs d = (Ok layers, d') ->
  feature <$> layers = fs /\
  Forall (fun l => (lastId (map d) < stamp l <= lastId (map d'))%nat) layers.
Proof.
  induction fs as [|f fs IH]; intros d layers d' Hrun; simpl in Hrun.
  - unfold ret in Hrun. by simplify_eq.
  - unfold bind at 1 in Hrun. simpl in Hrun.
    destruct (geometryToLayer options f) as [k s].
    unfold bind at 1 in Hrun.
    set (d1 := with_map (with_lastId (S (lastId (map d))) (map d)) d) in *.
    assert (Hcalls : exists calls,
      match onEachFeature options with
      | Some cb => lift (cb f)
      | None => ret []
      end d1 = (Ok calls, d1) \/
      exists e, match onEachFeature options with
      | Some cb => lift (cb f)
      | None => ret []
      end d1 = (Throw e, d1)).
    { destruct (onEachFeature options) as [cb|]; simpl.
      - unfold lift. destruct (cb f) as [calls|e]; [exists calls|exists []];
          eauto.
      - exists []. by left. }
    destruct Hcalls as (calls & [Hc | [e Hc]]); rewrite Hc in Hrun;
      [|done].
    unfold bind in Hrun.
    destruct (addData options fs d1) as [[rest|e] d2] eqn:Hrest; [|done].
    unfold ret in Hrun. simplify_eq.
    destruct (IH _ _ _ Hrest) as [Hfeat Hstamps].
    destruct (addData_only_stamps options fs d1) as (_&_&_&_&_&Hle).
    rewrite Hrest in Hle. simpl in Hle.
    destruct (foldl_apply_call_same
      {| stamp := S (lastId (map d)); feature := f; kind := k;
         style := setLayerStyle options k f s; popup := None;
         tooltip := None |} calls) as [Hst Hft].
    split.
    + simpl. rewrite Hft. simpl. by f_equal.
    + constructor.
      * rewrite Hst. simpl. lia.
      * eapply Forall_impl; [exact Hstamps|]. simpl. intros l. lia.
Qed.

(** The result of a successful [updateDataLayer]. *)
Lemma updateDataLayer_ok data options d layer d' :
  updateDataLayer data options d = (Ok layer, d') ->
  dataLayer d' = [layer] /\
  feature <$> gj_layers layer = features data /\
  (lastId (map d) < gj_stamp layer <= lastId (map d'))%nat /\
  Forall (fun l => (lastId (map d) < stamp l <= lastId (map d'))%nat)
    (gj_layers layer) /\
  map_layers (map d')
  = map_layers (map d) ∖ ⋃ (stamps_of <$> dataLayer d) ∪ stamps_of layer /\
  legend d' = legend d.
Proof.
  unfold updateDataLayer, geoJSON, clearLayers, addTo_dataLayer.
  unfold bind at 1. simpl.
  set (d0 := with_dataLayer [] _).
  unfold bind at 1. unfold bind at 1. simpl.
  set (d1 := with_map _ d0).
  unfold bind at 1.
  destruct (addData _ (features data) d1) as [[layers|e] d2] eqn:Hrun;
    [|done].
  unfold ret at 1. unfold bind at 1. simpl. unfold ret. intros Heq.
  simplify_eq. simpl.
  destruct (addData_ok _ _ _ _ _ Hrun) as [Hfeat Hstamps].
  destruct (addData_only_stamps (default defaultOptions options)
              (features data) d1) as (Hdl & Hlg & Hml & _ & _ & Hle).
  rewrite Hrun in Hdl, Hlg, Hml, Hle. simpl in *.
  rewrite Hdl, Hml, Hlg. repeat split; try done; try lia.
  - rewrite <- list_fmap_compose. exact Hfeat.
  - apply Forall_fmap. eapply Forall_impl; [exact Hstamps|].
    simpl. intros l. lia.
Qed.

(** Whatever [updateDataLayer] does, it starts by emptying the data
    layer; when it throws, the data layer stays empty. *)
Lemma updateDataLayer_throw data options d e d' :
  updateDataLayer data options d = (Throw e, d') ->
  dataLayer d' = [] /\
  map_layers (map d') = map_layers (map d) ∖ ⋃ (stamps_of <$> dataLayer d) /\
  legend d' = legend d /\
  (lastId (map d) <= lastId (map d'))%nat.
Proof.
  unfold updateDataLayer, geoJSON, clearLayers, addTo_dataLayer.
  unfold bind at 1. simpl.
  set (d0 := with_dataLayer [] _).
  unfold bind at 1. unfold bind at 1. simpl.
  set (d1 := with_map _ d0).
  unfold bind at 1.
  destruct (addData_only_stamps (default defaultOptions options)
              (features data) d1) as (Hdl & Hlg & Hml & _ & _ & Hle).
  destruct (addData _ (features data) d1) as [[layers|e'] d2] eqn:Hrun.
  - unfold ret at 1. unfold bind at 1. simpl. unfold ret. done.
  - intros Heq. simplify_eq. simpl in *.
    rewrite Hdl, Hml, Hlg. repeat split; try done; lia.
Qed.
End RenderingProperties.

Section OverlayProperties.
Context `{!JsRuntime}.

Lemma elem_of_stamps_of x g :
  x ∈ stamps_of g <-> x = gj_stamp g \/ exists l, l ∈ gj_layers g /\ stamp l = x.
Proof.
  unfold stamps_of. rewrite elem_of_union, elem_of_singleton.
  rewrite elem_of_list_to_set, list_elem_of_fmap. split.
  - intros [->|(l & -> & Hl)]; [by left | right; eauto].
  - intros [->|(l & Hl & <-)]; [by left | right; eauto].
Qed.

(** C3. Of two successive calls of [updateDataLayer], the second
    leaves in the data layer, and on the map, no layer the first one
    made; when it returns, the data layer holds exactly the layer it
    returns, whose members are the features of its own dataset, one
    each and in order. *)
Theorem second_render_replaces_first
  (d d1 d2 : SlideDeck) (data1 data2 : FeatureCollection)
  (options1 options2 : option Options) (layer1 : GeoJSONLayer)
  (r : outcome GeoJSONLayer) :
  updateDataLayer data1 options1 d = (Ok layer1, d1) ->
  updateDataLayer data2 options2 d1 = (r, d2) ->
  (forall g x y, g ∈ dataLayer d2 -> x ∈ gj_layers g ->
     y ∈ gj_layers layer1 -> stamp x <> stamp y) /\
  (forall y, y ∈ gj_layers layer1 -> stamp y ∉ map_layers (map d2)) /\
  (forall layer2, r = Ok layer2 ->
     dataLayer d2 = [layer2] /\
     feature <$> gj_layers layer2 = features data2 /\
     length (gj_layers layer2) = length (features data2)).
Proof.
  intros H1 H2.
  destruct (updateDataLayer_ok _ _ _ _ _ H1)
    as (Hdl1 & _ & _ & Hst1 & _ & _).
  rewrite Forall_forall in Hst1.
  destruct r as [layer2|e].
  - destruct (updateDataLayer_ok _ _ _ _ _ H2)
      as (Hdl2 & Hfeat & Hgj & Hst2 & Hml & _).
    rewrite Forall_forall in Hst2.
    rewrite Hdl2, Hml, Hdl1. split; [|split].
    + intros g x y Hg Hx Hy. apply list_elem_of_singleton in Hg. subst g.
      apply Hst1 in Hy. apply Hst2 in Hx. lia.
    + intros y Hy. pose proof (Hst1 _ Hy) as Hrange.
      simpl. rewrite elem_of_union, elem_of_difference.
      rewrite union_empty_r_L. rewrite !elem_of_stamps_of.
      intros [[_ Hnot] | [Heq | (l & Hl & Heq)]].
      * apply Hnot. right. eauto.
      * lia.
      * apply Hst2 in Hl. lia.
    + intros ? [= <-]. repeat split; [done|].
      by rewrite <- Hfeat, length_fmap.
  - destruct (updateDataLayer_throw _ _ _ _ _ H2) as (Hdl2 & Hml & _).
    rewrite Hdl2, Hml, Hdl1. split; [|split].
    + intros g x y Hg. by apply elem_of_nil in Hg.
    + intros y Hy. simpl. rewrite elem_of_difference, union_empty_r_L.
      rewrite elem_of_stamps_of. intros [_ Hnot]. apply Hnot. eauto.
    + done.
Qed.
End OverlayProperties.

(** ** The default style and popup *)

Section StyleProperties.
Context `{!JsRuntime}.

(** C5. The fill colour [pointStyle] gives a feature follows the
    thresholds from the highest down: a magnitude of at least 9 gives
    "#da2d2d", else at least 8 gives "#ff7a00", else at least 7 gives
    "#f7fd04", the bounds included, and anything lower gives the
    neutral "#ffefcf"; so does a feature with no magnitude. *)
Theorem pointStyle_thresholds (feature : Feature) :
  (forall m, magnitude feature = Some m ->
     (9 <= m -> fillColor (pointStyle feature) = Some "#da2d2d") /\
     (8 <= m /\ m < 9 -> fillColor (pointStyle feature) = Some "#ff7a00") /\
     (7 <= m /\ m < 8 -> fillColor (pointStyle feature) = Some "#f7fd04") /\
     (m < 7 -> fillColor (pointStyle feature) = Some "#ffefcf")) /\
  (magnitude feature = None ->
     fillColor (pointStyle feature) = Some "#ffefcf").
Proof.
  unfold magnitude, pointStyle, prop. simpl.
  destruct (properties feature) as [props|]; [|by split].
  destruct (props !! "magnitudo") as [v|]; [|by split]. simpl.
  assert (Hge : forall k m, to_number v = Some m ->
            (k <= m -> js_ge v k = true) /\ (m < k -> js_ge v k = false)).
  { intros k m Hm. unfold js_ge. rewrite Hm. split.
    - intros Hle. by apply Qle_bool_iff.
    - intros Hlt. destruct (Qle_bool k m) eqn:Hb; [|done].
      apply Qle_bool_iff in Hb. lra. }
  destruct v as [| |b|q|s|s]; try by split.
  all: cbn [negb is_undefined is_null]; split; [intros m Hm|].
  all: try (destruct (Hge 9.0 m Hm) as [H9 H9'];
            destruct (Hge 8.0 m Hm) as [H8 H8'];
            destruct (Hge 7.0 m Hm) as [H7 H7'];
            repeat split; intros Hr;
            [ rewrite H9 by lra; done
            | rewrite H9', H8 by lra; done
            | rewrite H9', H8', H7 by lra; done
            | rewrite H9', H8', H7' by lra; done ]).
  all: intros Hnone; unfold js_ge; simpl in *; by rewrite ?Hnone.
Qed.



End StyleProperties.

(** ** The legend *)

Section LegendProperties.
Context `{!JsRuntime}.
Context (fetch_json : string -> option FeatureCollection).

Lemma new_SlideDeck_stamps_ok top slides m options :
  (forall x, x ∈ map_layers m -> (x <= lastId m)%nat) ->
  stamps_ok (new_SlideDeck top slides m options).
Proof.
  intros Hm. unfold stamps_ok, new_SlideDeck. simpl. split; [|split].
  - intros x. rewrite elem_of_union, elem_of_singleton.
    intros [Hx| ->]; [apply Hm in Hx|]; lia.
  - lia.
  - rewrite elem_of_union, elem_of_singleton.
    intros [Hx|Hx]; [apply Hm in Hx|]; lia.
Qed.

Lemma hasLayer_legend_false d :
  stamps_ok d -> hasLayer (map d) (ctl_stamp (legend d)) = false.
Proof. intros (_ & _ & Hnot). unfold hasLayer. by apply bool_decide_eq_false. Qed.

Lemma updateDataLayer_stamps_ok data options d r d' :
  stamps_ok d -> updateDataLayer data options d = (r, d') -> stamps_ok d'.
Proof.
  intros (Hall & Hle & Hnot) Hrun. destruct r as [layer|e].
  - destruct (updateDataLayer_ok _ _ _ _ _ Hrun)
      as (_ & _ & Hgj & Hst & Hml & Hlg).
    rewrite Forall_forall in Hst.
    unfold stamps_ok. rewrite Hml, Hlg. split; [|split].
    + intros x. rewrite elem_of_union, elem_of_difference, elem_of_stamps_of.
      intros [[Hx _] | [-> | (l & Hl & <-)]].
      * apply Hall in Hx. lia.
      * lia.
      * apply Hst in Hl. lia.
    + lia.
    + rewrite elem_of_union, elem_of_difference, elem_of_stamps_of.
      intros [[Hx _] | [Heq | (l & Hl & Heq)]]; [done|lia|].
      apply Hst in Hl. lia.
  - destruct (updateDataLayer_throw _ _ _ _ _ Hrun) as (_ & Hml & Hlg & Hid).
    unfold stamps_ok. rewrite Hml, Hlg. split; [|split].
    + intros x. rewrite elem_of_difference. intros [Hx _].
      apply Hall in Hx. lia.
    + lia.
    + rewrite elem_of_difference. by intros [Hx _].
Qed.

(** [syncMapToSlide] step by step. *)
Lemma syncMapToSlide_unfold slide d :
  syncMapToSlide fetch_json (Some slide) d
  = match fetch_json ("data/" +:+ slide_id slide +:+ ".json") with
    | None => (Throw FetchError, d)
    | Some collection =>
        match updateDataLayer collection (slideOptions d !! slide_id slide) d
        with
        | (Throw e, d1) => (Throw e, d1)
        | (Ok layer, d1) =>
            let h := {| h_showpopups := showpopups slide;
                        h_layer := gj_stamp layer |} in
            let bounds :=
              match bbox collection with
              | Some bbox => boundsFromBbox bbox
              | None => getBounds layer
              end in
            match bounds with
            | None => (Throw TypeError, snd (addEventListener_moveend h d1))
            | Some _ =>
                let d2 := snd (flyToBounds bounds
                                 (snd (addEventListener_moveend h d1))) in
                let shown := hasLayer (map d2) (ctl_stamp (legend d2)) in
                if String.eqb (slide_id slide) "title-slide" then
                  if negb shown then legend_addTo d2 else (Ok tt, d2)
                else
                  if shown then removeControl_legend d2 else (Ok tt, d2)
            end
        end
    end.
Proof.
  unfold syncMapToSlide, getSlideFeatureCollection.
  unfold bind at 1.
  destruct (fetch_json _) as [collection|]; [|done]. simpl.
  unfold bind at 1, options_for. unfold bind at 1.
  destruct (updateDataLayer _ _ d) as [[layer|e] d1]; [|done].
  unfold bind at 1. simpl. unfold bind at 1.
  destruct (bbox collection) as [[[[west south] east] north]|]; simpl;
    [|destruct (getBounds layer); simpl; [|done]];
    unfold bind, hasLayer_legend; simpl;
    by repeat case_match.
Qed.

(** Under [stamps_ok], which the constructor sets up and every
    transition keeps, [hasLayer] never finds the legend: a transition
    to the title slide calls [addTo] each time, and no transition calls
    [removeControl]; a legend that is on stays on. *)
Lemma syncMapToSlide_legend slide d r d' :
  stamps_ok d ->
  syncMapToSlide fetch_json slide d = (r, d') ->
  stamps_ok d' /\
  (ctl_on (legend d) = true -> ctl_on (legend d') = true) /\
  (ctl_log (legend d') = ctl_log (legend d) \/
   ctl_log (legend d') = AddTo :: ctl_log (legend d)).
Proof.
  intros Hok. destruct slide as [slide|]; [|intros [= <- <-]; eauto].
  rewrite syncMapToSlide_unfold.
  destruct (fetch_json _) as [collection|]; [|intros [= <- <-]; eauto].
  destruct (updateDataLayer _ _ d) as [[layer|e] d1] eqn:Hrun.
  - pose proof (updateDataLayer_stamps_ok _ _ _ _ _ Hok Hrun) as Hok1.
    destruct (updateDataLayer_ok _ _ _ _ _ Hrun) as (_&_&_&_&_& Hlg).
    cbv zeta.
    destruct (match bbox collection with
              | Some bbox => boundsFromBbox bbox
              | None => getBounds layer
              end) as [target|];
      [|intros [= <- <-]; split; [exact Hok1 | simpl; rewrite Hlg; eauto]].
    set (d2 := snd (flyToBounds _ _)).
    assert (Hok2 : stamps_ok d2) by exact Hok1.
    rewrite (hasLayer_legend_false d2 Hok2). simpl.
    destruct (String.eqb _ _); intros [= <- <-]; simpl;
      (split; [exact Hok1 | rewrite ?Hlg; eauto]).
  - intros [= <- <-].
    destruct (updateDataLayer_throw _ _ _ _ _ Hrun) as (_&_& Hlg &_).
    rewrite Hlg. eauto using updateDataLayer_stamps_ok.
Qed.

Lemma preloadFeatureCollections_id d :
  preloadFeatureCollections fetch_json d = d.
Proof.
  unfold preloadFeatureCollections.
  generalize (slides d) as l. intros l. revert d.
  induction l as [|slide l IH]; intros d; simpl; [done|].
  rewrite <- (IH d) at 2. f_equal.
  unfold getSlideFeatureCollection. by destruct (fetch_json _).
Qed.

Lemma syncMapToCurrentSlide_legend d :
  stamps_ok d ->
  RemoveControl ∉ ctl_log (legend d) ->
  stamps_ok (syncMapToCurrentSlide fetch_json d) /\
  RemoveControl ∉ ctl_log (legend (syncMapToCurrentSlide fetch_json d)).
Proof.
  intros Hok Hlog. unfold syncMapToCurrentSlide.
  destruct (syncMapToSlide fetch_json (slide_at d (currentSlideIndex d)) d)
    as [r d'] eqn:Hrun.
  destruct (syncMapToSlide_legend _ _ _ _ Hok Hrun) as (Hok' & _ & Hlog').
  split; [exact Hok'|]. simpl.
  destruct Hlog' as [-> | ->]; [done|].
  rewrite not_elem_of_cons. by split.
Qed.

(** In no deck a session reaches has [removeControl] been called on
    the legend. *)
Lemma legend_never_removed d :
  reachable fetch_json d ->
  stamps_ok d /\ RemoveControl ∉ ctl_log (legend d).
Proof.
  induction 1 as [top slides m options Hm | d e Hreach [Hok Hlog]].
  - rewrite preloadFeatureCollections_id.
    apply syncMapToCurrentSlide_legend.
    + by apply new_SlideDeck_stamps_ok.
    + simpl. apply not_elem_of_nil.
  - destruct e as [| |scrollY innerHeight]; simpl.
    + rewrite goNextSlide_unfold. by apply syncMapToCurrentSlide_legend.
    + rewrite goPrevSlide_unfold. by apply syncMapToCurrentSlide_legend.
    + unfold calcCurrentSlideIndex. destruct (negb _); [|done].
      by apply syncMapToCurrentSlide_legend.
Qed.
End LegendProperties.

(** * The properties on the worked page *)

(** The page starts on its title slide, with the legend shown and one
    circle marker per earthquake, coloured by magnitude. *)
Example page_deck_start :
  currentSlideIndex page_deck = 0%Z /\
  ctl_on (legend page_deck) = true /\
  (fun g => (fun l => (kind l, fillColor (style l))) <$> gj_layers g)
    <$> dataLayer page_deck
  = [[(CircleMarker, Some "#da2d2d"); (CircleMarker, Some "#ff7a00")]].
Proof. by vm_compute. Qed.

(** The colours the specification lists for the default point style. *)
Example pointStyle_examples :
  fillColor (pointStyle (quake "a" 9.5 0 0)) = Some "#da2d2d" /\
  fillColor (pointStyle (quake "b" 8.2 0 0)) = Some "#ff7a00" /\
  fillColor (pointStyle (quake "c" 7.0 0 0)) = Some "#f7fd04" /\
  fillColor (pointStyle (quake "d" 6.9 0 0)) = Some "#ffefcf" /\
  fillColor (pointStyle {| properties := Some ∅; geometry := Point 0 0 |})
  = Some "#ffefcf" /\
  fillColor (pointStyle {| properties := None; geometry := Point 0 0 |})
  = Some "#ffefcf".
Proof. by vm_compute. Qed.

(** C1. Scrolled past the trigger line of the last slide, the loop of
    [calcCurrentSlideIndex] ends at the number of slides, and that
    number is stored as the current index: no slide is at it. *)
Theorem scroll_past_last_slide_stores_length :
  let d := calcCurrentSlideIndex page_fetch 5000 800 page_deck in
  length (slides d) = 3%nat /\
  currentSlideIndex d = 3%Z /\
  slide_at d (currentSlideIndex d) = None.
Proof. by vm_compute. Qed.

(** C8. On the page, after the move from the title slide to the second
    slide the legend is still on the map, and no call of
    [removeControl] was made; and a second transition to the title
    slide calls [addTo] on the legend again. *)
Theorem legend_stays_and_is_added_again :
  let d := goNextSlide page_fetch page_deck in
  slide_id <$> slide_at d (currentSlideIndex d) = Some "second-slide" /\
  ctl_on (legend d) = true /\
  ctl_log (legend d) = [AddTo] /\
  ctl_log (legend (syncMapToCurrentSlide page_fetch page_deck))
  = [AddTo; AddTo].
Proof. by vm_compute. Qed.

(** C9 fails as stated: after the move to the second slide the first
    slide is as visible as it was. *)
Lemma first_slide_still_visible :
  ~ only_current_visible (goNextSlide page_fetch page_deck).
Proof.
  intros Hvis.
  destruct (Hvis 0%nat
              {| slide_id := "title-slide"; offsetTop := 0;
                 showpopups := false; hidden := false |} eq_refl)
    as [Hcur _].
  specialize (Hcur eq_refl). vm_compute in Hcur. discriminate.
Qed.

(** ** Instances of the theorems *)



Lemma goNextSlide_cycle_witness :
  (1 <= length (slides page_deck))%nat /\
  currentSlideIndex page_deck = 0%Z /\
  currentSlideIndex
    (Nat.iter (length (slides page_deck)) (goNextSlide page_fetch) page_deck)
  = 0%Z.
Proof.
  split; [vm_compute; lia|]. split; [reflexivity|].
  apply (goNextSlide_cycle page_fetch page_deck).
  - vm_compute. lia.
  - reflexivity.
Defined.

Lemma failed_resolve_renders_nothing_witness :
  let d := goNextSlide page_fetch page_deck in
  let third :=
    {| slide_id := "third-slide"; offsetTop := 1800;
       showpopups := false; hidden := false |} in
  page_fetch ("data/" +:+ slide_id third +:+ ".json") = None /\
  slide_at d (next_index d) = Some third /\
  goNextSlide page_fetch d = with_index (next_index d) d.
Proof.
  intros d third. split; [reflexivity|]. split; [reflexivity|].
  apply (proj1 (proj2 (failed_resolve_renders_nothing page_fetch d third
                         eq_refl))).
  reflexivity.
Defined.

Lemma second_render_replaces_first_witness :
  first_render = (Ok first_layer, snd first_render) /\
  second_render = (fst second_render, snd second_render) /\
  forall y, y ∈ gj_layers first_layer ->
    stamp y ∉ map_layers (map (snd second_render)).
Proof.
  assert (H1 : first_render = (Ok first_layer, snd first_render))
    by (vm_compute; reflexivity).
  assert (H2 : second_render = (fst second_render, snd second_render))
    by (vm_compute; reflexivity).
  split; [exact H1|]. split; [exact H2|].
  apply (proj1 (proj2 (second_render_replaces_first
    (new_SlideDeck 0 page_slides index_map index_slideOptions)
    (snd first_render) (snd second_render) title_data second_data
    None (index_slideOptions !! "second-slide") first_layer
    (fst second_render) H1 H2))).
Defined.

Lemma pointStyle_thresholds_witness :
  magnitude (quake "Tohoku" 9.1 142.4 38.3) = Some 9.1 /\
  9 <= 9.1 /\
  fillColor (pointStyle (quake "Tohoku" 9.1 142.4 38.3)) = Some "#da2d2d".
Proof.
  split; [reflexivity|]. split; [discriminate|].
  apply (proj1 (proj1 (pointStyle_thresholds (quake "Tohoku" 9.1 142.4 38.3))
                  9.1 eq_refl)).
  discriminate.
Defined.


(** * Further properties of the code *)

(** ** Navigation *)

Section NavigationProperties.
Context `{!JsRuntime}.
Context (fetch_json : string -> option FeatureCollection).

(** X1. With the index in range, [goPrevSlide] undoes [goNextSlide]
    on the index and [goNextSlide] undoes [goPrevSlide], wrap-around
    included. *)
Theorem goPrevSlide_undoes_goNextSlide (d : SlideDeck) :
  (0 <= currentSlideIndex d < Z.of_nat (length (slides d)))%Z ->
  currentSlideIndex (goPrevSlide fetch_json (goNextSlide fetch_json d))
  = currentSlideIndex d /\
  currentSlideIndex (goNextSlide fetch_json (goPrevSlide fetch_json d))
  = currentSlideIndex d.
Proof.
  intros Hr.
  destruct (goNextSlide_index fetch_json d) as [Hn Hns].
  destruct (goPrevSlide_index fetch_json d) as [Hp Hps].
  destruct (goPrevSlide_index fetch_json (goNextSlide fetch_json d))
    as [-> _].
  destruct (goNextSlide_index fetch_json (goPrevSlide fetch_json d))
    as [-> _].
  unfold prev_index at 1, next_index at 1. rewrite Hn, Hns, Hp, Hps.
  unfold next_index, prev_index. simpl.
  split.
  - destruct (Z.eqb_spec (currentSlideIndex d + 1)
                (Z.of_nat (length (slides d)))).
    + destruct (Z.ltb_spec (0 - 1) 0); lia.
    + destruct (Z.ltb_spec (currentSlideIndex d + 1 - 1) 0); lia.
  - destruct (Z.ltb_spec (currentSlideIndex d - 1) 0).
    + destruct (Z.eqb_spec (Z.of_nat (length (slides d)) - 1 + 1)
                  (Z.of_nat (length (slides d)))); lia.
    + destruct (Z.eqb_spec (currentSlideIndex d - 1 + 1)
                  (Z.of_nat (length (slides d)))); lia.
Qed.

Lemma handle_navigation_range e d :
  is_navigation e ->
  (0 <= currentSlideIndex d < Z.of_nat (length (slides d)))%Z ->
  (0 <= currentSlideIndex (handle fetch_json e d)
   < Z.of_nat (length (slides (handle fetch_json e d))))%Z.
Proof.
  intros He Hr. destruct (navigation_keeps_range d Hr) as [Hn Hp].
  destruct e as [| |y h]; simpl in *; [| |done].
  - by destruct (goNextSlide_index fetch_json d) as [-> ->].
  - by destruct (goPrevSlide_index fetch_json d) as [-> ->].
Qed.

(** X2. Explicit navigation keeps a valid index valid: after any
    sequence of [goNextSlide] and [goPrevSlide] calls on a deck whose
    index is in range, the index is in range. *)
Theorem navigation_keeps_index_in_range (events : list event)
  (d : SlideDeck) :
  Forall is_navigation events ->
  (0 <= currentSlideIndex d < Z.of_nat (length (slides d)))%Z ->
  (0 <= currentSlideIndex (run fetch_json events d)
   < Z.of_nat (length (slides (run fetch_json events d))))%Z.
Proof.
  intros Hnav. revert d.
  induction Hnav as [|e events He _ IH]; intros d Hr; simpl; [done|].
  apply IH. by apply handle_navigation_range.
Qed.

Lemma iter_goPrevSlide_slides k d :
  slides (Nat.iter k (goPrevSlide fetch_json) d) = slides d.
Proof.
  induction k as [|k IH]; simpl; [done|].
  by destruct (goPrevSlide_index fetch_json
                 (Nat.iter k (goPrevSlide fetch_json) d)) as [_ ->].
Qed.

(** X3. With at least one slide and the index at 0, the first
    [goPrevSlide] wraps to the last slide and the k-th leaves the index
    at N - k, so N calls bring it back to 0. *)
Theorem goPrevSlide_cycle (d : SlideDeck) (k : nat) :
  currentSlideIndex d = 0%Z ->
  (1 <= k <= length (slides d))%nat ->
  currentSlideIndex (Nat.iter k (goPrevSlide fetch_json) d)
  = (Z.of_nat (length (slides d)) - Z.of_nat k)%Z.
Proof.
  intros H0. induction k as [|k IH]; intros Hk; [lia|]. simpl.
  destruct (goPrevSlide_index fetch_json
              (Nat.iter k (goPrevSlide fetch_json) d)) as [-> _].
  unfold prev_index. simpl. rewrite iter_goPrevSlide_slides.
  destruct k as [|k'].
  - simpl. rewrite H0.
    destruct (Z.ltb_spec (0 - 1) 0); lia.
  - rewrite IH by lia.
    destruct (Z.ltb_spec
                (Z.of_nat (length (slides d)) - Z.of_nat (S k') - 1) 0); lia.
Qed.

(** X4. Navigation does not bring an index back that is past the end:
    from an index of N or more [goNextSlide] moves one further and
    changes nothing else, as no slide is there to synchronise to; and
    [goPrevSlide] from an index above N does the same downwards. *)
Theorem navigation_past_the_end (d : SlideDeck) :
  (Z.of_nat (length (slides d)) <= currentSlideIndex d)%Z ->
  goNextSlide fetch_json d = with_index (currentSlideIndex d + 1) d /\
  ((Z.of_nat (length (slides d)) < currentSlideIndex d)%Z ->
   goPrevSlide fetch_json d = with_index (currentSlideIndex d - 1) d).
Proof.
  intros Hr.
  assert (Hnone : forall i, (Z.of_nat (length (slides d)) <= i)%Z ->
            syncMapToCurrentSlide fetch_json (with_index i d)
            = with_index i d).
  { intros i Hi. unfold syncMapToCurrentSlide, slide_at. simpl.
    destruct (Z.ltb_spec i 0); [lia|].
    rewrite (proj2 (lookup_ge_None (slides d) (Z.to_nat i))) by lia.
    done. }
  split.
  - rewrite goNextSlide_unfold. unfold next_index. simpl.
    destruct (Z.eqb_spec (currentSlideIndex d + 1)
                (Z.of_nat (length (slides d)))); [lia|].
    apply Hnone. lia.
  - intros Hgt. rewrite goPrevSlide_unfold. unfold prev_index. simpl.
    destruct (Z.ltb_spec (currentSlideIndex d - 1) 0); [lia|].
    apply Hnone. lia.
Qed.
End NavigationProperties.

(** ** Scroll events *)








Section ScrollProperties.
Context `{!JsRuntime}.
Context (fetch_json : string -> option FeatureCollection).

Lemma calcCurrentSlideIndex_same_page scrollY innerHeight d :
  slides (calcCurrentSlideIndex fetch_json scrollY innerHeight d)
  = slides d /\
  container_offsetTop (calcCurrentSlideIndex fetch_json scrollY innerHeight d)
  = container_offsetTop d.
Proof.
  unfold calcCurrentSlideIndex. destruct (negb _); [|done].
  by destruct (syncMapToCurrentSlide_same_page fetch_json
                 (with_index
                    (Z.of_nat (computedIndex d scrollY innerHeight)) d))
    as (-> & _ & -> & _).
Qed.

Lemma calcCurrentSlideIndex_sets_index scrollY innerHeight d :
  currentSlideIndex (calcCurrentSlideIndex fetch_json scrollY innerHeight d)
  = Z.of_nat (computedIndex d scrollY innerHeight).
Proof.
  unfold calcCurrentSlideIndex.
  destruct (Z.eqb_spec (Z.of_nat (computedIndex d scrollY innerHeight))
              (currentSlideIndex d)) as [Heq|Hne]; simpl; [done|].
  by destruct (syncMapToCurrentSlide_same_page fetch_json
                 (with_index
                    (Z.of_nat (computedIndex d scrollY innerHeight)) d))
    as (_ & -> & _).
Qed.


(** X6. A scroll event repeated at the same position does nothing the
    second time: no second transition is started. *)
Theorem scroll_event_idempotent (d : SlideDeck) (scrollY innerHeight : Q) :
  calcCurrentSlideIndex fetch_json scrollY innerHeight
    (calcCurrentSlideIndex fetch_json scrollY innerHeight d)
  = calcCurrentSlideIndex fetch_json scrollY innerHeight d.
Proof.
  set (d' := calcCurrentSlideIndex fetch_json scrollY innerHeight d).
  assert (Hi : computedIndex d' scrollY innerHeight
               = computedIndex d scrollY innerHeight).
  { destruct (calcCurrentSlideIndex_same_page scrollY innerHeight d)
      as [Hs Hc].
    unfold computedIndex. fold d' in Hs, Hc. by rewrite Hs, Hc. }
  unfold calcCurrentSlideIndex at 1. rewrite Hi.
  unfold d' at 1. rewrite calcCurrentSlideIndex_sets_index.
  by rewrite Z.eqb_refl.
Qed.

End ScrollProperties.

(** ** The default popup *)

Lemma replace_first_absent c by_ s :
  occurs c s = false -> replace_first c by_ s = s.
Proof.
  induction s as [|a s IH]; simpl; [done|].
  destruct (Ascii.eqb a c); simpl; [done|].
  intros Hs. by rewrite IH.
Qed.

Lemma replace_first_app c by_ a b :
  occurs c a = false ->
  replace_first c by_ (a +:+ String c b) = a +:+ by_ +:+ b.
Proof.
  induction a as [|x a IH]; simpl.
  - intros _. by rewrite Ascii.eqb_refl.
  - destruct (Ascii.eqb x c); simpl; [done|].
    intros Ha. by rewrite IH.
Qed.

Lemma occurs_app c a b : occurs c (a +:+ b) = occurs c a || occurs c b.
Proof.
  induction a as [|x a IH]; simpl; [done|].
  by rewrite IH, orb_assoc.
Qed.

Lemma append_assoc (a b c : string) : (a +:+ b) +:+ c = a +:+ (b +:+ c).
Proof.
  induction a as [|x a IH]; [done|].
  change (String x ((a +:+ b) +:+ c) = String x (a +:+ (b +:+ c))).
  by f_equal.
Qed.

Lemma append_empty_r (a : string) : a +:+ "" = a.
Proof.
  induction a as [|x a IH]; [done|].
  change (String x (a +:+ "") = String x a). by f_equal.
Qed.

Section PopupProperties.
Context `{!JsRuntime}.

(** X11. The default [onEachFeature] throws a TypeError on a feature
    whose [properties] is [null] and on one whose [date] is truthy
    without being a string; on every other feature it binds exactly
    one popup. *)
Theorem default_onEachFeature_outcome (f : Feature) :
  (properties f = None -> default_onEachFeature f = Throw TypeError) /\
  (forall props, properties f = Some props ->
     truthy (prop props "date") = true ->
     (forall s, prop props "date" <> VStr s) ->
     default_onEachFeature f = Throw TypeError) /\
  (forall props, properties f = Some props ->
     truthy (prop props "date") = false \/
     (exists s, prop props "date" = VStr s) ->
     exists content, default_onEachFeature f = Ok [BindPopup content]).
Proof.
  unfold default_onEachFeature, popup_content, date_text, js_or.
  split; [by intros ->|]. split.
  - intros props -> Ht Hs. rewrite Ht.
    destruct (prop props "date") as [| |b|q|s|s]; try done.
    by destruct (Hs s).
  - intros props -> [Hf | [s Hs]].
    + rewrite Hf. eauto.
    + rewrite Hs. destruct (truthy (VStr s)); eauto.
Qed.

(** X12. The date line of the popup: an ISO timestamp
    [<date>T<time>Z] is shown as [<date> <time>], the first "T" made a
    space and the first "Z" dropped; a string with neither letter is
    shown as it is, and the empty string as "N/A". *)
Theorem date_text_normalises (date time : string) :
  occurs "T" date = false ->
  occurs "Z" date = false ->
  occurs "Z" time = false ->
  date_text (VStr (date +:+ "T" +:+ time +:+ "Z"))
  = Ok (date +:+ " " +:+ time) /\
  date_text (VStr date) = Ok (if String.eqb date "" then "N/A" else date).
Proof.
  intros HT HZ HZt. unfold date_text, js_or. split.
  - assert (Hne : truthy (VStr (date +:+ "T" +:+ time +:+ "Z")) = true)
      by (by destruct date).
    rewrite Hne.
    change (date +:+ "T" +:+ time +:+ "Z")
      with (date +:+ String "T" (time +:+ "Z")).
    rewrite replace_first_app by done.
    assert (Hshape : date +:+ " " +:+ time +:+ "Z"
                     = (date +:+ " " +:+ time) +:+ String "Z" "")
      by (by rewrite !append_assoc).
    rewrite Hshape, replace_first_app.
    + by rewrite append_empty_r.
    + rewrite !occurs_app, HZ, HZt. done.
  - simpl. destruct (String.eqb_spec date "") as [->|Hne]; simpl; [done|].
    by rewrite (replace_first_absent "T" " " date HT),
      (replace_first_absent "Z" "" date HZ).
Qed.
End PopupProperties.

(** ** Rendering, feature by feature *)

Section RenderedLayers.
Context `{!JsRuntime}.

(** [addData] returns exactly when the callback returns on every
    feature. *)
Lemma addData_result options fs : forall d,
  match addData options fs d with
  | (Ok _, _) => Forall (accepts options) fs
  | (Throw _, _) => ~ Forall (accepts options) fs
  end.
Proof.
  induction fs as [|f fs IH]; intros d; simpl; [constructor|].
  unfold bind at 1. simpl.
  destruct (geometryToLayer options f) as [k s].
  unfold bind at 1.
  set (d1 := with_map (with_lastId (S (lastId (map d))) (map d)) d).
  assert (Hhead : accepts options f <->
            exists calls,
              match onEachFeature options with
              | Some cb => lift (cb f)
              | None => ret []
              end d1 = (Ok calls, d1)).
  { unfold accepts. destruct (onEachFeature options) as [cb|]; simpl.
    - unfold lift. split; intros [calls Hc]; exists calls; congruence.
    - split; [by exists []|done]. }
  destruct (match onEachFeature options with
            | Some cb => lift (cb f)
            | None => ret []
            end d1) as [[calls|e] d1'] eqn:Hc.
  - assert (d1' = d1) as ->.
    { destruct (onEachFeature options); unfold lift, ret in Hc;
        by simplify_eq. }
    unfold bind. specialize (IH d1).
    destruct (addData options fs d1) as [[rest|e] d2]; simpl.
    + constructor; [apply Hhead; eauto | done].
    + rewrite Forall_cons. tauto.
  - rewrite Forall_cons. intros [Hf _]. apply Hhead in Hf as [calls Hf].
    congruence.
Qed.

(** A successful [addData] gives the i-th feature the i-th new stamp
    and the layer [layer_of] describes. *)
Lemma addData_exact options fs : forall d layers d',
  addData options fs d = (Ok layers, d') ->
  Ok <$> layers
  = imap (fun i f => layer_of options (S (lastId (map d)) + i) f) fs.
Proof.
  induction fs as [|f fs IH]; intros d layers d' Hrun; simpl in Hrun.
  - unfold ret in Hrun. by simplify_eq.
  - unfold bind at 1 in Hrun. simpl in Hrun.
    rewrite imap_cons. unfold layer_of at 1.
    destruct (geometryToLayer options f) as [k s].
    unfold bind at 1 in Hrun.
    set (d1 := with_map (with_lastId (S (lastId (map d))) (map d)) d) in *.
    destruct (onEachFeature options) as [cb|] eqn:Hcb.
    + unfold lift at 1 in Hrun. destruct (cb f) as [calls|e]; [|done].
      unfold bind in Hrun.
      destruct (addData options fs d1) as [[rest|e] d2] eqn:Hrest; [|done].
      unfold ret in Hrun. simplify_eq.
      rewrite fmap_cons, (IH _ _ _ Hrest), Nat.add_0_r. f_equal.
      apply imap_ext. intros i x _. subst d1. simpl.
      by rewrite Nat.add_succ_r.
    + unfold ret at 1 in Hrun. unfold bind in Hrun.
      destruct (addData options fs d1) as [[rest|e] d2] eqn:Hrest; [|done].
      unfold ret in Hrun. simplify_eq.
      rewrite fmap_cons, (IH _ _ _ Hrest), Nat.add_0_r. f_equal.
      apply imap_ext. intros i x _. subst d1. simpl.
      by rewrite Nat.add_succ_r.
Qed.

(** What a successful [updateDataLayer] is made of. *)
Lemma updateDataLayer_inv data options d layer d' :
  updateDataLayer data options d = (Ok layer, d') ->
  exists layers,
    layer = group_bindTooltip TipLabelOfLayer
              {| gj_stamp := S (lastId (map d)); gj_layers := layers |} /\
    Ok <$> layers
    = imap (fun i f =>
              layer_of (default defaultOptions options)
                (S (S (lastId (map d))) + i) f)
        (features data).
Proof.
  unfold updateDataLayer, geoJSON, clearLayers, addTo_dataLayer.
  unfold bind at 1. simpl.
  set (d0 := with_dataLayer [] _).
  unfold bind at 1. unfold bind at 1. simpl.
  set (d1 := with_map _ d0).
  unfold bind at 1.
  destruct (addData _ (features data) d1) as [[layers|e] d2] eqn:Hrun;
    [|done].
  unfold ret at 1. unfold bind at 1. simpl. unfold ret. intros Heq.
  simplify_eq. exists layers. split; [done|].
  by rewrite (addData_exact _ _ _ _ _ Hrun).
Qed.

Lemma updateDataLayer_succeeds_iff_accepts data options d :
  (exists layer d', updateDataLayer data options d = (Ok layer, d')) <->
  Forall (accepts (default defaultOptions options)) (features data).
Proof.
  unfold updateDataLayer, geoJSON, clearLayers, addTo_dataLayer.
  unfold bind at 1. simpl.
  set (d0 := with_dataLayer [] _).
  unfold bind at 1. unfold bind at 1. simpl.
  set (d1 := with_map _ d0).
  unfold bind at 1.
  pose proof (addData_result (default defaultOptions options)
                (features data) d1) as Hres.
  destruct (addData _ (features data) d1) as [[layers|e] d2].
  - unfold ret at 1. unfold bind at 1. simpl. unfold ret.
    split; [done|eauto].
  - split; [|done]. by intros (layer & d' & ?).
Qed.

(** X13. [updateDataLayer] returns a layer exactly when the
    [onEachFeature] callback in force (that of the options given, or
    the default one) returns on every feature of the dataset;
    otherwise it throws. *)
Theorem updateDataLayer_succeeds_iff (data : FeatureCollection)
  (options : option Options) (d : SlideDeck) :
  (exists layer d', updateDataLayer data options d = (Ok layer, d')) <->
  Forall (accepts (default defaultOptions options)) (features data).
Proof. apply updateDataLayer_succeeds_iff_accepts. Qed.


Lemma layer_of_default id f l :
  layer_of defaultOptions id f = Ok l ->
  stamp l = id /\ feature l = f /\
  (exists props content,
     properties f = Some props /\ popup_content props = Ok content /\
     popup l = Some content) /\
  match geometry f with
  | Point _ _ => kind l = CircleMarker /\ style l = pointStyle f
  | Shape _ => kind l = Path /\ style l = no_style
  end.
Proof.
  unfold layer_of, defaultOptions, geometryToLayer, default_onEachFeature.
  simpl.
  destruct (properties f) as [props|] eqn:Hp;
    [|by destruct (geometry f)].
  destruct (popup_content props) as [content|e] eqn:Hc;
    [|by destruct (geometry f)].
  destruct (geometry f); simpl; intros [= <-]; simpl; eauto 10.
Qed.

Lemma imap_Ok_lookup {A B} (g : nat -> A -> outcome B) (fs : list A)
  (layers : list B) i l :
  Ok <$> layers = imap g fs ->
  layers !! i = Some l ->
  exists f, fs !! i = Some f /\ g i f = Ok l.
Proof.
  intros Heq Hl.
  assert (Hi : (Ok <$> layers) !! i = Some (Ok l))
    by (by rewrite list_lookup_fmap, Hl).
  rewrite Heq, list_lookup_imap in Hi.
  destruct (fs !! i) as [f|]; simpl in Hi; [|done].
  exists f. split; [done|congruence].
Qed.

(** X16. With the default options every rendered layer carries the
    popup made from its feature's properties; a point feature is
    drawn as a circle marker styled by [pointStyle] of that feature,
    and any other geometry as a path in Leaflet's own style. *)
Theorem default_rendering (data : FeatureCollection)
  (d d' : SlideDeck) (layer : GeoJSONLayer) :
  updateDataLayer data None d = (Ok layer, d') ->
  Forall (fun l =>
            (exists props content,
               properties (feature l) = Some props /\
               popup_content props = Ok content /\
               popup l = Some content) /\
            match geometry (feature l) with
            | Point _ _ =>
                kind l = CircleMarker /\ style l = pointStyle (feature l)
            | Shape _ => kind l = Path /\ style l = no_style
            end)
    (gj_layers layer).
Proof.
  intros Hrun.
  destruct (updateDataLayer_inv _ _ _ _ _ Hrun) as (layers & -> & Hex).
  simpl in *. apply Forall_fmap. apply Forall_lookup. intros i l Hl.
  destruct (imap_Ok_lookup _ _ _ _ _ Hex Hl) as (f & _ & Hof).
  destruct (layer_of_default _ _ _ Hof) as (_ & Hf & Hpop & Hgeo).
  simpl. by rewrite Hf.
Qed.

Lemma layer_of_stamp options id f l :
  layer_of options id f = Ok l -> stamp l = id.
Proof.
  unfold layer_of. destruct (geometryToLayer options f) as [k s].
  destruct (onEachFeature options) as [cb|].
  - destruct (cb f) as [calls|e]; [|done]. intros [= <-].
    apply foldl_apply_call_same.
  - by intros [= <-].
Qed.

Lemma addData_stamps options fs d layers d' :
  addData options fs d = (Ok layers, d') ->
  stamp <$> layers = seq (S (lastId (map d))) (length fs).
Proof.
  intros Hrun. pose proof (addData_exact _ _ _ _ _ Hrun) as Hex.
  apply list_eq. intros i.
  rewrite list_lookup_fmap.
  destruct (layers !! i) as [l|] eqn:Hl; simpl.
  - destruct (imap_Ok_lookup _ _ _ _ _ Hex Hl) as (f & Hf & Hof).
    apply layer_of_stamp in Hof. rewrite Hof.
    symmetry. apply lookup_seq. split; [done|].
    by apply lookup_lt_Some in Hf.
  - symmetry. apply lookup_ge_None. rewrite length_seq.
    apply lookup_ge_None in Hl.
    assert (Hlen : length layers = length fs).
    { rewrite <- (length_fmap Ok layers), Hex. apply length_imap. }
    lia.
Qed.

(** X17. Every feature gets a layer of its own: the group that
    [updateDataLayer] returns and its members are pairwise different
    objects, one member per feature, and all of them are on the map
    afterwards. *)
Theorem rendered_layers_distinct_on_map (data : FeatureCollection)
  (options : option Options) (d d' : SlideDeck) (layer : GeoJSONLayer) :
  updateDataLayer data options d = (Ok layer, d') ->
  NoDup (gj_stamp layer :: (stamp <$> gj_layers layer)) /\
  length (gj_layers layer) = length (features data) /\
  hasLayer (map d') (gj_stamp layer) = true /\
  Forall (fun l => hasLayer (map d') (stamp l) = true) (gj_layers layer).
Proof.
  intros Hrun.
  destruct (updateDataLayer_ok _ _ _ _ _ Hrun)
    as (_ & Hfeat & _ & _ & Hml & _).
  assert (Hon : forall x, x ∈ stamps_of layer -> hasLayer (map d') x = true).
  { intros x Hx. unfold hasLayer. apply bool_decide_eq_true.
    rewrite Hml. apply elem_of_union. by right. }
  split; [|split; [|split]].
  - revert Hrun.
    unfold updateDataLayer, geoJSON, clearLayers, addTo_dataLayer.
    unfold bind at 1. simpl.
    set (d0 := with_dataLayer [] _).
    unfold bind at 1. unfold bind at 1. simpl.
    set (d1 := with_map _ d0).
    unfold bind at 1.
    destruct (addData _ (features data) d1) as [[layers|e] d2] eqn:Hadd;
      [|done].
    unfold ret at 1. unfold bind at 1. simpl. unfold ret. intros Heq.
    simplify_eq. simpl.
    rewrite <- list_fmap_compose.
    change (stamp ∘ bindTooltip TipLabelOfLayer false) with stamp.
    rewrite (addData_stamps _ _ _ _ _ Hadd). simpl.
    change (S (lastId (map d)) :: seq (S (S (lastId (map d))))
                                    (length (features data)))
      with (seq (S (lastId (map d))) (S (length (features data)))).
    apply NoDup_seq.
  - by rewrite <- Hfeat, length_fmap.
  - apply Hon, elem_of_stamps_of. by left.
  - apply Forall_forall. intros l Hl.
    apply Hon, elem_of_stamps_of. right. eauto.
Qed.
End RenderedLayers.

(** ** Transitions as a whole *)

Lemma scan_fmap (g : Slide -> Slide) scrollPos windowHeight rest :
  (forall s, offsetTop (g s) = offsetTop s) ->
  forall i, scan scrollPos windowHeight i (g <$> rest)
            = scan scrollPos windowHeight i rest.
Proof.
  intros Hg. induction rest as [|s rest IH]; intros i; simpl; [done|].
  unfold slidePos. rewrite Hg.
  destruct (Qle_bool 0 _); [done|]. apply IH.
Qed.

Section TransitionProperties.
Context `{!JsRuntime}.
Context (fetch_json : string -> option FeatureCollection).

Lemma updateDataLayer_events data options d r d' :
  updateDataLayer data options d = (r, d') ->
  moveend (map d') = moveend (map d) /\ flights (map d') = flights (map d).
Proof.
  unfold updateDataLayer, geoJSON, clearLayers, addTo_dataLayer.
  unfold bind at 1. simpl.
  set (d0 := with_dataLayer [] _).
  unfold bind at 1. unfold bind at 1. simpl.
  set (d1 := with_map _ d0).
  unfold bind at 1.
  destruct (addData_only_stamps (default defaultOptions options)
              (features data) d1) as (_ & _ & _ & Hmv & Hfl & _).
  destruct (addData _ (features data) d1) as [[layers|e] d2].
  - unfold ret at 1. unfold bind at 1. simpl. unfold ret.
    intros [= <- <-]. simpl in *. by rewrite Hmv, Hfl.
  - intros [= <- <-]. simpl in *. by rewrite Hmv, Hfl.
Qed.

(** X14. When the dataset resolves but rendering it throws, the
    transition stops there with that error: the overlay is left empty
    (the previous one is gone), and no handler is registered, no
    flight started and the legend not touched. *)
Theorem failed_render_empties_overlay (d d1 : SlideDeck) (slide : Slide)
  (collection : FeatureCollection) (e : error) :
  fetch_json ("data/" +:+ slide_id slide +:+ ".json") = Some collection ->
  updateDataLayer collection (slideOptions d !! slide_id slide) d
  = (Throw e, d1) ->
  syncMapToSlide fetch_json (Some slide) d = (Throw e, d1) /\
  dataLayer d1 = [] /\
  legend d1 = legend d /\
  moveend (map d1) = moveend (map d) /\
  flights (map d1) = flights (map d).
Proof.
  intros Hfetch Hrun. rewrite syncMapToSlide_unfold, Hfetch, Hrun.
  destruct (updateDataLayer_throw _ _ _ _ _ Hrun) as (Hdl & _ & Hlg & _).
  destruct (updateDataLayer_events _ _ _ _ _ Hrun) as [Hmv Hfl].
  done.
Qed.


(** An event leaves the deck alone or synchronises it at some index. *)
Lemma handle_cases e d :
  handle fetch_json e d = d \/
  exists i, handle fetch_json e d
            = syncMapToCurrentSlide fetch_json (with_index i d).
Proof.
  destruct e as [| |scrollY innerHeight]; simpl.
  - right. eexists. apply goNextSlide_unfold.
  - right. eexists. apply goPrevSlide_unfold.
  - unfold calcCurrentSlideIndex. destruct (negb _); eauto.
Qed.

(** X18. [removeControl] is never called on the legend: in no deck a
    session reaches does the log of the legend hold that call, and
    whatever event comes next, a legend that is on the map stays on
    it. *)
Theorem legend_is_never_removed (d : SlideDeck) (e : event) :
  reachable fetch_json d ->
  (RemoveControl ∉ ctl_log (legend d)) /\
  (ctl_on (legend d) = true ->
   ctl_on (legend (handle fetch_json e d)) = true).
Proof.
  intros Hreach.
  destruct (legend_never_removed fetch_json d Hreach) as [Hok Hlog].
  split; [done|]. intros Hon.
  destruct (handle_cases e d) as [-> | [i ->]]; [done|].
  unfold syncMapToCurrentSlide.
  destruct (syncMapToSlide fetch_json _ (with_index i d)) as [r d'] eqn:Hrun.
  assert (Hok' : stamps_ok (with_index i d)) by exact Hok.
  destruct (syncMapToSlide_legend _ _ _ _ _ Hok' Hrun) as (_ & Hkeep & _).
  by apply Hkeep.
Qed.

Lemma syncMapToSlide_overlay slide d r d' :
  overlay_ok d ->
  syncMapToSlide fetch_json slide d = (r, d') ->
  overlay_ok d'.
Proof.
  intros Hok. destruct slide as [slide|]; [|by intros [= <- <-]].
  rewrite syncMapToSlide_unfold.
  destruct (fetch_json _) as [collection|]; [|by intros [= <- <-]].
  destruct (updateDataLayer _ _ d) as [[layer|e] d1] eqn:Hrun.
  - destruct (updateDataLayer_ok _ _ _ _ _ Hrun)
      as (Hdl & _ & _ & _ & Hml & _).
    assert (Hok1 : overlay_ok d1).
    { unfold overlay_ok. rewrite Hdl, Hml. split; [simpl; lia|].
      intros g x Hg Hx. apply list_elem_of_singleton in Hg. subst g.
      apply elem_of_union. by right. }
    cbv zeta.
    destruct (match bbox collection with
              | Some bbox => boundsFromBbox bbox
              | None => getBounds layer
              end) as [target|]; [|by intros [= <- <-]].
    destruct (String.eqb _ _), (hasLayer _ _); simpl;
      by intros [= <- <-].
  - intros [= <- <-].
    destruct (updateDataLayer_throw _ _ _ _ _ Hrun) as (Hdl & _).
    unfold overlay_ok. rewrite Hdl. split; [simpl; lia|].
    intros g x Hg. by apply elem_of_nil in Hg.
Qed.

(** X19. In every deck a session reaches the overlay is at most one
    rendered group, and that group and all its members are in the
    layer table of the map. *)
Theorem overlay_matches_the_map (d : SlideDeck) :
  reachable fetch_json d -> overlay_ok d.
Proof.
  induction 1 as [top slides m options Hm | d e Hreach Hok].
  - rewrite preloadFeatureCollections_id. unfold syncMapToCurrentSlide.
    destruct (syncMapToSlide fetch_json _ _) as [r d'] eqn:Hrun.
    eapply syncMapToSlide_overlay; [|exact Hrun].
    split; [simpl; lia|]. intros g x Hg. by apply elem_of_nil in Hg.
  - destruct (handle_cases e d) as [-> | [i ->]]; [done|].
    unfold syncMapToCurrentSlide.
    destruct (syncMapToSlide fetch_json _ (with_index i d))
      as [r d'] eqn:Hrun.
    eapply syncMapToSlide_overlay; [|exact Hrun]. exact Hok.
Qed.

Lemma run_slides events d : slides (run fetch_json events d) = slides d.
Proof.
  revert d. induction events as [|e events IH]; intros d; simpl; [done|].
  rewrite IH.
  destruct (handle_cases e d) as [-> | [i ->]]; [done|].
  by destruct (syncMapToCurrentSlide_same_page fetch_json (with_index i d))
    as [-> _].
Qed.

(** X20. [hideAllSlides] hides and does nothing else: it keeps the
    ids, tops and [showpopups] of the slides in order, so the index a
    scroll position selects is the same; doing it twice is doing it
    once; and since no event shows a slide again, every slide stays
    hidden through any session that follows. *)
Theorem hideAllSlides_only_hides (d : SlideDeck) :
  hideAllSlides (hideAllSlides d) = hideAllSlides d /\
  slide_id <$> slides (hideAllSlides d) = slide_id <$> slides d /\
  offsetTop <$> slides (hideAllSlides d) = offsetTop <$> slides d /\
  showpopups <$> slides (hideAllSlides d) = showpopups <$> slides d /\
  (forall scrollY innerHeight,
     computedIndex (hideAllSlides d) scrollY innerHeight
     = computedIndex d scrollY innerHeight) /\
  (forall events,
     Forall (fun slide => hidden slide = true)
       (slides (run fetch_json events (hideAllSlides d)))).
Proof.
  split; [|split; [|split; [|split; [|split]]]].
  - unfold hideAllSlides, with_slides. simpl. f_equal.
    rewrite <- list_fmap_compose. by apply list_fmap_ext.
  - unfold hideAllSlides. simpl.
    rewrite <- list_fmap_compose. by apply list_fmap_ext.
  - unfold hideAllSlides. simpl.
    rewrite <- list_fmap_compose. by apply list_fmap_ext.
  - unfold hideAllSlides. simpl.
    rewrite <- list_fmap_compose. by apply list_fmap_ext.
  - intros scrollY innerHeight. unfold computedIndex, hideAllSlides. simpl.
    by apply scan_fmap.
  - intros events. rewrite run_slides. unfold hideAllSlides. simpl.
    apply Forall_fmap, Forall_true. done.
Qed.
End TransitionProperties.

(** ** Instances of the further properties *)

Lemma page_slides_of_page_deck : slides page_deck = page_slides.
Proof. vm_compute. reflexivity. Defined.

Lemma goPrevSlide_undoes_goNextSlide_witness :
  (0 <= currentSlideIndex page_deck
   < Z.of_nat (length (slides page_deck)))%Z /\
  currentSlideIndex
    (goPrevSlide page_fetch (goNextSlide page_fetch page_deck))
  = currentSlideIndex page_deck.
Proof.
  assert (Hr : (0 <= currentSlideIndex page_deck
                < Z.of_nat (length (slides page_deck)))%Z)
    by (vm_compute; split; [discriminate | reflexivity]).
  split; [exact Hr|].
  apply (proj1 (goPrevSlide_undoes_goNextSlide page_fetch page_deck Hr)).
Defined.

Lemma navigation_keeps_index_in_range_witness :
  Forall is_navigation [Next; Next; Prev; Next] /\
  (0 <= currentSlideIndex (run page_fetch [Next; Next; Prev; Next] page_deck)
   < Z.of_nat
       (length (slides (run page_fetch [Next; Next; Prev; Next] page_deck))))%Z.
Proof.
  assert (Hnav : Forall is_navigation [Next; Next; Prev; Next])
    by (repeat constructor).
  split; [exact Hnav|].
  apply (navigation_keeps_index_in_range page_fetch _ page_deck Hnav).
  vm_compute. split; [discriminate | reflexivity].
Defined.

Lemma goPrevSlide_cycle_witness :
  currentSlideIndex page_deck = 0%Z /\
  (1 <= 1 <= length (slides page_deck))%nat /\
  currentSlideIndex (Nat.iter 1 (goPrevSlide page_fetch) page_deck)
  = (Z.of_nat (length (slides page_deck)) - Z.of_nat 1)%Z.
Proof.
  assert (Hk : (1 <= 1 <= length (slides page_deck))%nat)
    by (rewrite page_slides_of_page_deck; simpl; lia).
  split; [reflexivity|]. split; [exact Hk|].
  apply (goPrevSlide_cycle page_fetch page_deck 1 eq_refl Hk).
Defined.

Lemma navigation_past_the_end_witness :
  (Z.of_nat (length (slides past_end_deck))
   <= currentSlideIndex past_end_deck)%Z /\
  goNextSlide page_fetch past_end_deck
  = with_index (currentSlideIndex past_end_deck + 1) past_end_deck.
Proof.
  assert (Hr : (Z.of_nat (length (slides past_end_deck))
                <= currentSlideIndex past_end_deck)%Z)
    by (vm_compute; discriminate).
  split; [exact Hr|].
  apply (proj1 (navigation_past_the_end page_fetch past_end_deck Hr)).
Defined.







Lemma default_onEachFeature_outcome_witness :
  properties {| properties := None; geometry := Point 0 0 |} = None /\
  default_onEachFeature {| properties := None; geometry := Point 0 0 |}
  = Throw TypeError.
Proof.
  split; [reflexivity|].
  apply (proj1 (default_onEachFeature_outcome
                  {| properties := None; geometry := Point 0 0 |})).
  reflexivity.
Defined.

Lemma date_text_normalises_witness :
  occurs "T" "2011-03-11" = false /\
  occurs "Z" "2011-03-11" = false /\
  occurs "Z" "05:46:24" = false /\
  date_text (VStr ("2011-03-11" +:+ "T" +:+ "05:46:24" +:+ "Z"))
  = Ok ("2011-03-11" +:+ " " +:+ "05:46:24").
Proof.
  split; [reflexivity|]. split; [reflexivity|]. split; [reflexivity|].
  apply (proj1 (date_text_normalises "2011-03-11" "05:46:24"
                  eq_refl eq_refl eq_refl)).
Defined.

Lemma failed_render_empties_overlay_witness :
  let slide :=
    {| slide_id := "title-slide"; offsetTop := 0;
       showpopups := false; hidden := false |} in
  null_properties_fetch ("data/" +:+ slide_id slide +:+ ".json")
  = Some null_properties_data /\
  null_properties_render = (Throw TypeError, snd null_properties_render) /\
  syncMapToSlide null_properties_fetch (Some slide) page_deck
  = (Throw TypeError, snd null_properties_render) /\
  dataLayer (snd null_properties_render) = [].
Proof.
  intros slide.
  assert (Hrun : null_properties_render
                 = (Throw TypeError, snd null_properties_render))
    by (vm_compute; reflexivity).
  split; [reflexivity|]. split; [exact Hrun|].
  destruct (failed_render_empties_overlay null_properties_fetch page_deck
              (snd null_properties_render) slide null_properties_data
              TypeError eq_refl Hrun) as (Hsync & Hdl & _).
  split; [exact Hsync | exact Hdl].
Defined.

Lemma first_render_ok : first_render = (Ok first_layer, snd first_render).
Proof. vm_compute. reflexivity. Defined.


Lemma default_rendering_witness :
  first_render = (Ok first_layer, snd first_render) /\
  length (gj_layers first_layer) = 2%nat /\
  Forall (fun l =>
            (exists props content,
               properties (feature l) = Some props /\
               popup_content props = Ok content /\
               popup l = Some content) /\
            match geometry (feature l) with
            | Point _ _ =>
                kind l = CircleMarker /\ style l = pointStyle (feature l)
            | Shape _ => kind l = Path /\ style l = no_style
            end)
    (gj_layers first_layer).
Proof.
  split; [exact first_render_ok|]. split; [reflexivity|].
  apply (default_rendering _ _ _ _ first_render_ok).
Defined.

Lemma rendered_layers_distinct_on_map_witness :
  first_render = (Ok first_layer, snd first_render) /\
  NoDup (gj_stamp first_layer :: (stamp <$> gj_layers first_layer)).
Proof.
  split; [exact first_render_ok|].
  apply (proj1 (rendered_layers_distinct_on_map _ _ _ _ _ first_render_ok)).
Defined.

Lemma page_deck_reachable : reachable page_fetch page_deck.
Proof.
  apply (reach_start page_fetch 0 page_slides index_map index_slideOptions).
  intros x Hx. unfold index_map in Hx. simpl in Hx.
  apply elem_of_singleton in Hx. subst x. simpl. lia.
Defined.

Lemma legend_is_never_removed_witness :
  reachable page_fetch page_deck /\
  RemoveControl ∉ ctl_log (legend page_deck).
Proof.
  split; [exact page_deck_reachable|].
  apply (proj1 (legend_is_never_removed page_fetch page_deck Next
                  page_deck_reachable)).
Defined.

Lemma overlay_matches_the_map_witness :
  reachable page_fetch (handle page_fetch Next page_deck) /\
  overlay_ok (handle page_fetch Next page_deck).
Proof.
  assert (Hreach : reachable page_fetch (handle page_fetch Next page_deck))
    by (apply reach_step, page_deck_reachable).
  split; [exact Hreach|].
  apply (overlay_matches_the_map page_fetch _ Hreach).
Defined.


(** ** The options of index.js *)

Section IndexOptions.
Context `{!JsRuntime}.

Lemma index_options_lookup id :
  id ∈ ["second-slide"; "third-slide"] ->
  exists stroke fill,
    (id = "second-slide" /\ stroke = "red" /\ fill = "green" \/
     id = "third-slide" /\ stroke = "blue" /\ fill = "yellow") /\
    index_slideOptions !! id
    = Some {| pointToLayer := None;
              style_of := Some (fun _ =>
                {| radius := None; fillColor := Some fill;
                   color := Some stroke; weight := None; opacity := None;
                   fillOpacity := Some 0.5 |});
              onEachFeature := Some label_tooltip |}.
Proof.
  rewrite !elem_of_cons, elem_of_nil. intros [->|[->|[]]].
  - exists "red", "green". split; [by left|]. reflexivity.
  - exists "blue", "yellow". split; [by right|]. reflexivity.
Qed.

(** X22. With the options index.js gives its second and third slide,
    rendering throws exactly when a feature has [null] properties; a
    point feature becomes a plain marker, which the style function
    does not reach, every other geometry a path in the slide's
    colours (red on green, blue on yellow) at fill opacity 0.5, and no
    layer gets a popup. *)
Theorem index_options_rendering (id : string) (data : FeatureCollection)
  (d : SlideDeck) :
  id ∈ ["second-slide"; "third-slide"] ->
  ((exists layer d',
      updateDataLayer data (index_slideOptions !! id) d = (Ok layer, d'))
   <-> Forall (fun f => properties f <> None) (features data)) /\
  (forall layer d',
     updateDataLayer data (index_slideOptions !! id) d = (Ok layer, d') ->
     Forall (fun l =>
               popup l = None /\
               match geometry (feature l) with
               | Point _ _ => kind l = Marker /\ style l = no_style
               | Shape _ =>
                   kind l = Path /\
                   color (style l)
                   = Some (if String.eqb id "second-slide"
                           then "red" else "blue") /\
                   fillColor (style l)
                   = Some (if String.eqb id "second-slide"
                           then "green" else "yellow") /\
                   fillOpacity (style l) = Some 0.5
               end)
       (gj_layers layer)).
Proof.
  intros Hid.
  destruct (index_options_lookup id Hid) as (stroke & fill & Hcol & ->).
  split.
  - rewrite updateDataLayer_succeeds_iff_accepts. simpl.
    apply Forall_iff. intros f. unfold accepts, label_tooltip. simpl.
    destruct (properties f); split; try done; eauto.
    by intros [calls ?].
  - intros layer d' Hrun.
    destruct (updateDataLayer_inv _ _ _ _ _ Hrun) as (layers & -> & Hex).
    simpl in *. apply Forall_fmap. apply Forall_lookup. intros i l Hl.
    destruct (imap_Ok_lookup _ _ _ _ _ Hex Hl) as (f & _ & Hof).
    revert Hof. unfold layer_of, geometryToLayer, label_tooltip. simpl.
    destruct (properties f) as [props|];
      [|by destruct (geometry f)].
    destruct (geometry f) eqn:Hgeo; simpl; intros [= <-]; simpl;
      rewrite Hgeo.
    + done.
    + destruct Hcol as [(-> & -> & ->) | (-> & -> & ->)]; done.
Qed.
End IndexOptions.

Lemma index_options_rendering_witness :
  "second-slide" ∈ ["second-slide"; "third-slide"] /\
  bbox_render = (Ok bbox_layer, snd bbox_render) /\
  Forall (fun l => popup l = None) (gj_layers bbox_layer).
Proof.
  assert (Hid : "second-slide" ∈ ["second-slide"; "third-slide"])
    by apply list_elem_of_here.
  assert (Hrun : bbox_render = (Ok bbox_layer, snd bbox_render))
    by (vm_compute; reflexivity).
  split; [exact Hid|]. split; [exact Hrun|].
  eapply Forall_impl.
  - apply (proj2 (index_options_rendering "second-slide" second_data
                    page_deck Hid) bbox_layer (snd bbox_render)).
    exact Hrun.
  - intros l Hl. exact (proj1 Hl).
Defined.
